(** * The Go agent for AWS IoT Jobs and Mender: model and properties

    A shallow embedding of the device agent in [goagent/]:

    - [awsiotjobs/awsiotjobs.go]: the job execution record, its status
      reports over MQTT, the echo handler and the job dispatcher;
    - [awsiotjobs/mender/mender.go]: the job document decoder, [Process]
      and the install / commit / rollback state machine [exec];
    - [mendercmd]: the [Commander] interface of the update tool.

    The MQTT client ([IMqttClient]), the update tool and the clock are the
    environment.  The MQTT client is a recording double with a table of
    subscriptions; the update tool is described by what it answers and by
    the timed events it sends on its channels. *)

From Stdlib Require Import ZArith String Ascii List Bool Lia.
From stdpp Require Import base strings gmap list.

Set Warnings "-register-all".

Local Open Scope string_scope.
Local Open Scope list_scope.

(** ** JSON values and [encoding/json] as the agent uses it *)

Module json.

(** A decoded JSON document.  Numbers of the job protocol (version and
    execution numbers, timestamps) are integers and are the only ones
    modelled.  An object keeps its members in document order. *)
Inductive value : Type :=
| Null
| Bool (b : bool)
| Num (n : Z)
| Str (s : string)
| Arr (items : list value)
| Obj (members : list (string * value)).

(** A Go [map[string]interface{}] that is not nil: its entries, kept in
    increasing key order, which is the order [json.Marshal] writes them. *)
Definition object : Type := list (string * value).

(** [m[k] = v] *)
Fixpoint set (k : string) (v : value) (m : object) : object :=
  match m with
  | [] => [(k, v)]
  | (k', v') :: m' =>
      match String.compare k k' with
      | Lt => (k, v) :: m
      | Eq => (k, v) :: m'
      | Gt => (k', v') :: set k v m'
      end
  end.

(** [v, ok := m[k]] *)
Fixpoint get (k : string) (m : object) : option value :=
  match m with
  | [] => None
  | (k', v) :: m' => if String.eqb k k' then Some v else get k m'
  end.

(** Decoding the members of a JSON object into a map: a later member
    overwrites an earlier one with the same key. *)
Definition merge (members : list (string * value)) (m : object) : object :=
  fold_left (fun acc kv => set kv.1 kv.2 acc) members m.

(** A Go map variable: [None] is the nil map. *)
Definition gomap : Type := option object.

(** [v, ok := m[k]], which also reads a nil map. *)
Definition index (k : string) (m : gomap) : option value :=
  match m with
  | None => None
  | Some o => get k o
  end.

(** [json.Marshal] of a map: [null] for the nil map. *)
Definition Marshal_map (m : gomap) : value :=
  match m with
  | None => Null
  | Some o => Obj o
  end.

(** [json.Unmarshal(text, &m)] into a nil [map[string]interface{}]: only
    an object fills it; [null], any other value and invalid text (no
    document at all) leave it nil. *)
Definition Unmarshal_map (doc : option value) : gomap :=
  match doc with
  | Some (Obj members) => Some (merge members [])
  | _ => None
  end.

(** Key matching of struct fields.  [encoding/json] accepts a key that
    equals the field's name under Unicode simple case folding: the ASCII
    letters fold to upper case, and the only other runes that fold to an
    ASCII letter are U+017F (long s) and U+212A (Kelvin sign). *)
Definition upper (c : ascii) : ascii :=
  let n := nat_of_ascii c in
  if (97 <=? n)%nat && (n <=? 122)%nat then ascii_of_nat (n - 32) else c.

Fixpoint foldName (s : string) : string :=
  match s with
  | EmptyString => EmptyString
  | String "197" (String "191" rest) => String "S" (foldName rest)
  | String "226" (String "132" (String "170" rest)) => String "K" (foldName rest)
  | String c rest => String (upper c) (foldName rest)
  end.

Definition names (tag key : string) : bool :=
  String.eqb (foldName key) (foldName tag).

(** The members of the document a struct is decoded from: none for
    [null], for a value that is not an object and for invalid text. *)
Definition members_of (doc : value) : list (string * value) :=
  match doc with
  | Obj members => members
  | _ => []
  end.

(** Decoding one struct field.  Every member whose key names the field is
    decoded in turn, so the last one stands; a value of the wrong type is
    skipped and the field keeps what it had. *)
Definition string_field (tag : string) (doc : value) (zero : string) : string :=
  fold_left
    (fun acc kv =>
       if names tag kv.1
       then match kv.2 with Str s => s | _ => acc end
       else acc)
    (members_of doc) zero.

Definition min_int64 : Z := - 2 ^ 63.
Definition max_int64 : Z := 2 ^ 63 - 1.

Definition int64_field (tag : string) (doc : value) (zero : Z) : Z :=
  fold_left
    (fun acc kv =>
       if names tag kv.1
       then match kv.2 with
            | Num n => if (min_int64 <=? n)%Z && (n <=? max_int64)%Z then n else acc
            | _ => acc
            end
       else acc)
    (members_of doc) zero.

(** A map field: an object is merged into the map the field holds (a new
    map when it holds nil), [null] sets it to nil. *)
Definition map_field (tag : string) (doc : value) (zero : gomap) : gomap :=
  fold_left
    (fun acc kv =>
       if names tag kv.1
       then match kv.2 with
            | Obj members => Some (merge members (default [] acc))
            | Null => None
            | _ => acc
            end
       else acc)
    (members_of doc) zero.

(** A struct field: the nested document the field is decoded from. *)
Definition struct_field (tag : string) (doc : value) : value :=
  fold_left
    (fun acc kv =>
       if names tag kv.1
       then match kv.2 with Obj members => Obj (members_of acc ++ members) | _ => acc end
       else acc)
    (members_of doc) Null.

(** The member a struct field is read from last: the last one whose key
    names the field. *)
Definition member (tag : string) (members : list (string * value)) : option value :=
  fold_left (fun acc kv => if names tag kv.1 then Some kv.2 else acc) members None.

(** [json.Marshal] of a Go string, as a reader of the text gets it back.
    The bytes of every valid UTF-8 encoding are kept; a byte that starts
    none (as [utf8.DecodeRuneInString] has it: a stray continuation byte,
    an overlong or truncated sequence, a surrogate, a value above
    U+10FFFF) becomes U+FFFD. *)
Definition replacement : string :=
  String "239" (String "191" (String "189" EmptyString)).

Definition between (lo hi : nat) (c : ascii) : bool :=
  (lo <=? nat_of_ascii c)%nat && (nat_of_ascii c <=? hi)%nat.

(** The second byte of a three-byte and of a four-byte encoding, by the
    first. *)
Definition second_of_three (c c1 : ascii) : bool :=
  if between 224 224 c then between 160 191 c1
  else if between 237 237 c then between 128 159 c1
  else between 128 191 c1.

Definition second_of_four (c c1 : ascii) : bool :=
  if between 240 240 c then between 144 191 c1
  else if between 244 244 c then between 128 143 c1
  else between 128 191 c1.

Fixpoint Marshal_string (s : string) : string :=
  match s with
  | EmptyString => EmptyString
  | String c rest =>
      let bad := replacement +:+ Marshal_string rest in
      if between 0 127 c then String c (Marshal_string rest)
      else if between 194 223 c then
        match rest with
        | String c1 rest1 =>
            if between 128 191 c1
            then String c (String c1 (Marshal_string rest1))
            else bad
        | _ => bad
        end
      else if between 224 239 c then
        match rest with
        | String c1 (String c2 rest2) =>
            if second_of_three c c1 && between 128 191 c2
            then String c (String c1 (String c2 (Marshal_string rest2)))
            else bad
        | _ => bad
        end
      else if between 240 244 c then
        match rest with
        | String c1 (String c2 (String c3 rest3)) =>
            if second_of_four c c1 && between 128 191 c2 && between 128 191 c3
            then String c (String c1 (String c2 (String c3 (Marshal_string rest3))))
            else bad
        | _ => bad
        end
      else bad
  end.


End json.

(** ** Package [awsiotjobs] *)

Module awsiotjobs.
Import json.

(** *** Control: a call returns or panics, and changes the state it runs in *)

Inductive Outcome (A : Type) : Type :=
| Returns (a : A)
| Panics (msg : string).
Arguments Returns {A} a.
Arguments Panics {A} msg.

Definition Go (S A : Type) : Type := S → Outcome A * S.

#[global] Instance Go_ret {S} : MRet (Go S) := λ A a s, (Returns a, s).

#[global] Instance Go_bind {S} : MBind (Go S) := λ A B k m s,
  match m s with
  | (Returns a, s') => k a s'
  | (Panics msg, s') => (Panics msg, s')
  end.

Definition panic {S A} (msg : string) : Go S A := λ s, (Panics msg, s).
Definition gets {S A} (f : S → A) : Go S A := λ s, (Returns (f s), s).
Definition modify {S} (f : S → S) : Go S () := λ s, (Returns (), f s).

(** *** Time *)

(** [time.Duration]: nanoseconds. *)
Definition Duration : Type := Z.
Definition Second : Duration := 1000000000%Z.
Definition Minute : Duration := (60 * Second)%Z.

Definition publishTimeout : Duration := (2 * Second)%Z.

(** *** The MQTT client *)

(** [mqtt.Token]: when the operation completes (never, for [None]) and the
    error it then carries. *)
Record Token : Type := {
  completion : option Duration;
  failure : option string
}.

(** [token.WaitTimeout(d)]: whether the token completed before [d] passed. *)
Definition WaitTimeout (t : Token) (d : Duration) : bool :=
  match completion t with
  | Some after => (after <? d)%Z
  | None => false
  end.

(** [token.Error()] *)
Definition Error (t : Token) : option string := failure t.

(** The functions the agent installs as message handlers. *)
Inductive MessageHandler : Type :=
| client_jobHandler
| the_defaultHandler
| je_updateHandler (jobId : string).

Record Publication : Type := {
  pub_topic : string;
  pub_qos : Z;
  pub_retained : bool;
  pub_payload : value
}.

(** [IMqttClient], as a double that records: what was published, the
    handler subscribed on each topic, and the tokens its next publishes
    will hand out. *)
Record IMqttClient : Type := {
  published : list Publication;
  subscriptions : gmap string MessageHandler;
  tokens : list Token
}.

Definition acknowledged : Token := {| completion := Some 0%Z; failure := None |}.

Record Config : Type := {
  Port : Z;
  CaCertPath : string;
  CertificatePath : string;
  PrivateKeyPath : string;
  Endpoint : string;
  ThingName : string;
  ClientID : string
}.

Record Client : Type := {
  Iot : option IMqttClient;
  config : Config
}.

Definition with_Iot (iot : IMqttClient) (c : Client) : Client :=
  {| Iot := Some iot; config := config c |}.

(** A method call on [client.Iot]: a nil interface panics. *)
Definition on_Iot {A} (f : IMqttClient → A * IMqttClient) : Go Client A := λ c,
  match Iot c with
  | None =>
      (Panics "runtime error: invalid memory address or nil pointer dereference", c)
  | Some iot => let (a, iot') := f iot in (Returns a, with_Iot iot' c)
  end.

Definition Iot_Publish (topic : string) (qos : Z) (retained : bool) (payload : value)
  : Go Client Token :=
  on_Iot (λ iot,
    (hd acknowledged (tokens iot),
     {| published := published iot ++
          [{| pub_topic := topic; pub_qos := qos; pub_retained := retained;
              pub_payload := payload |}];
        subscriptions := subscriptions iot;
        tokens := tl (tokens iot) |})).

Definition Iot_Subscribe (topic : string) (qos : Z) (callback : MessageHandler)
  : Go Client () :=
  on_Iot (λ iot,
    ((), {| published := published iot;
            subscriptions := <[topic := callback]> (subscriptions iot);
            tokens := tokens iot |})).

Definition Iot_Unsubscribe (topic : string) : Go Client () :=
  on_Iot (λ iot,
    ((), {| published := published iot;
            subscriptions := delete topic (subscriptions iot);
            tokens := tokens iot |})).

(** [fmt.Sprintf(jobBaseTopic, thingName, rest)] *)
Definition jobBaseTopic (thingName rest : string) : string :=
  "$aws/things/" +:+ thingName +:+ "/jobs/" +:+ rest.

(** *** Job errors and the execution record *)

Record JobError : Type := {
  ErrCode : string;
  ErrMessage : string
}.

Definition JobError_Error (err : JobError) : string :=
  "code " +:+ ErrCode err +:+ ", msg: " +:+ ErrMessage err.

(** Go's [error] values: a [JobError], or an error that is only a message
    (a token's error, an error of the update tool). *)
Inductive error : Type :=
| errorString (msg : string)
| job_error (err : JobError).

Definition JobDocument : Type := gomap.
Definition StatusDetails : Type := gomap.

(** [JobExecution]; the fields carry the names of their json tags.  The
    [client] pointer is the [Client] of the [Store] the record lives in. *)
Record JobExecution : Type := {
  jobId : string;
  thingName : string;
  jobDocument : JobDocument;
  status : string;
  statusDetails : StatusDetails;
  queuedAt : Z;
  startedAt : Z;
  lastUpdatedAt : Z;
  versionNumber : Z;
  executionNumber : Z
}.

Definition zero_JobExecution : JobExecution :=
  {| jobId := ""; thingName := ""; jobDocument := None; status := "";
     statusDetails := None; queuedAt := 0; startedAt := 0; lastUpdatedAt := 0;
     versionNumber := 0; executionNumber := 0 |}.

Definition with_thingName (n : string) (je : JobExecution) : JobExecution :=
  {| jobId := jobId je; thingName := n; jobDocument := jobDocument je;
     status := status je; statusDetails := statusDetails je;
     queuedAt := queuedAt je; startedAt := startedAt je;
     lastUpdatedAt := lastUpdatedAt je; versionNumber := versionNumber je;
     executionNumber := executionNumber je |}.

Definition with_status (st : string) (sd : StatusDetails) (je : JobExecution)
  : JobExecution :=
  {| jobId := jobId je; thingName := thingName je; jobDocument := jobDocument je;
     status := st; statusDetails := sd;
     queuedAt := queuedAt je; startedAt := startedAt je;
     lastUpdatedAt := lastUpdatedAt je; versionNumber := versionNumber je;
     executionNumber := executionNumber je |}.

Definition with_version (v : Z) (sd : StatusDetails) (je : JobExecution)
  : JobExecution :=
  {| jobId := jobId je; thingName := thingName je; jobDocument := jobDocument je;
     status := status je; statusDetails := sd;
     queuedAt := queuedAt je; startedAt := startedAt je;
     lastUpdatedAt := lastUpdatedAt je; versionNumber := v;
     executionNumber := executionNumber je |}.

(** One execution record and the client it points to. *)
Record Store : Type := {
  client : Client;
  job : JobExecution
}.

Definition on_client {A} (m : Go Client A) : Go Store A := λ s,
  let (r, c) := m (client s) in (r, {| client := c; job := job s |}).

Definition on_job (f : JobExecution → JobExecution) : Go Store () :=
  modify (λ s, {| client := client s; job := f (job s) |}).

Definition GetJobDocument (je : JobExecution) : JobDocument := jobDocument je.
Definition GetStatusDetails (je : JobExecution) : StatusDetails := statusDetails je.
Definition GetThingName (s : Store) : string := ThingName (config (client s)).
Definition GetJobID (je : JobExecution) : string := jobId je.

(** *** Status reports *)

(** The document [getUpdatePayload] marshals.  The keys of the Go map come
    out in increasing order. *)
Definition getUpdatePayload (je : JobExecution) : value :=
  Obj (set "clientToken" (Str "client-token")
      (set "includeJobExecutionState" (Bool true)
      (set "executionNumber" (Num (executionNumber je))
      (set "expectedVersion" (Num (versionNumber je))
      (set "statusDetails" (Marshal_map (statusDetails je))
      (set "status" (Str (status je)) [])))))).

Definition sendUpdate : Go Store (option error) :=
  iot ← gets (λ s, Iot (client s));
  (if iot is None then panic "Iot client not set" else mret ());;
  je ← gets job;
  thing ← gets (λ s, ThingName (config (client s)));
  let payload := getUpdatePayload je in
  let topic := jobBaseTopic thing (jobId je) +:+ "/update" in
  token ← on_client (Iot_Publish topic 1 false payload);
  if WaitTimeout token publishTimeout && bool_decide (Error token ≠ None)
  then mret (errorString <$> Error token)
  else mret None.

(** The topic of the echoes: [update/accepted] of every job of the thing. *)
Definition updateTopic (c : Client) : string :=
  jobBaseTopic (ThingName (config c)) "+/update/accepted".

Definition subscribeToUpdates (je : JobExecution) : Go Client () :=
  c ← gets id;
  Iot_Subscribe (updateTopic c) 0 (je_updateHandler (jobId je)).

Definition unsubscribeFromUpdates : Go Client () :=
  c ← gets id;
  Iot_Unsubscribe (updateTopic c).

Definition InProgress (details : StatusDetails) : Go Store (option error) :=
  on_job (with_status "IN_PROGRESS" details);;
  sendUpdate.

Definition Success (details : StatusDetails) : Go Store (option error) :=
  on_job (with_status "SUCCEEDED" details);;
  err ← sendUpdate;
  match err with
  | Some e => mret (Some e)
  | None => on_client unsubscribeFromUpdates;; mret None
  end.

Definition Fail (err : JobError) : Go Store (option error) :=
  on_job (with_status "FAILED" (Some [("error", Str (JobError_Error err))]));;
  e ← sendUpdate;
  match e with
  | Some _ => mret (Some (job_error err))
  | None => on_client unsubscribeFromUpdates;; mret None
  end.

Definition Reject (err : JobError) : Go Store (option error) :=
  on_job (with_status "REJECTED" (Some [("error", Str (JobError_Error err))]));;
  e ← sendUpdate;
  match e with
  | Some _ => mret (Some (job_error err))
  | None => on_client unsubscribeFromUpdates;; mret None
  end.

Definition unsubscribe : Go Client () :=
  thing ← gets (λ c, ThingName (config c));
  Iot_Unsubscribe (jobBaseTopic thing "notify-next");;
  Iot_Unsubscribe (jobBaseTopic thing "+/get/accepted");;
  Iot_Unsubscribe (jobBaseTopic thing "+/get/rejected");;
  Iot_Unsubscribe (jobBaseTopic thing "start-next/accepted");;
  Iot_Unsubscribe (jobBaseTopic thing "start-next/rejected").

Definition subscribe : Go Client () :=
  thing ← gets (λ c, ThingName (config c));
  Iot_Subscribe (jobBaseTopic thing "notify-next") 0 client_jobHandler;;
  Iot_Subscribe (jobBaseTopic thing "+/get/accepted") 0 client_jobHandler;;
  Iot_Subscribe (jobBaseTopic thing "+/get/rejected") 0 the_defaultHandler;;
  Iot_Subscribe (jobBaseTopic thing "start-next/accepted") 0 client_jobHandler;;
  Iot_Subscribe (jobBaseTopic thing "start-next/rejected") 0 the_defaultHandler.

Definition Terminate : Go Store () :=
  on_client unsubscribe.

Definition Publish (topic : string) (qos : Z) (payload : value) : Go Store () :=
  on_client (Iot_Publish topic qos false payload);;
  mret ().

(** *** Incoming messages *)

(** [mqtt.Message]: the topic, the payload bytes, and the document
    [json.Unmarshal] reads from them ([None] when they are not JSON). *)
Record Message : Type := {
  Topic : string;
  Payload : string;
  Document : option value
}.

Record executionStateType : Type := {
  es_Status : string;
  es_StatusDetails : StatusDetails;
  es_VersionNumber : Z
}.

Record updatePayload : Type := {
  ExecutionState : executionStateType
}.

(** [payload := updatePayload{}; json.Unmarshal(msg.Payload(), &payload)] *)
Definition Unmarshal_updatePayload (doc : option value) : updatePayload :=
  let es := struct_field "executionState" (default Null doc) in
  {| ExecutionState :=
       {| es_Status := string_field "status" es "";
          es_StatusDetails := map_field "statusDetails" es None;
          es_VersionNumber := int64_field "versionNumber" es 0 |} |}.

Definition updateHandler (msg : Message) : Go Store () :=
  let payload := Unmarshal_updatePayload (Document msg) in
  on_job (with_version (es_VersionNumber (ExecutionState payload))
                       (es_StatusDetails (ExecutionState payload))).

(** [json.Marshal] of a value held in an [interface{}].  Every object in
    it had become a Go map, so its keys are distinct, a later member
    having overwritten an earlier one, and come out in order.  Every
    number had become a float64: the model keeps the numbers as they are,
    which is what the code does for the documents that [round_trips]
    holds of. *)
Fixpoint Marshal_interface (v : value) : value :=
  match v with
  | Obj members =>
      Obj (merge (List.map (fun kv : string * value =>
                              let (k, v') := kv in (k, Marshal_interface v'))
                           members)
                 (@nil (string * value)))
  | Arr items => Arr (List.map Marshal_interface items)
  | _ => v
  end.

(** [json.Unmarshal(executionJSON, &jobExecution)] *)
Definition Unmarshal_JobExecution (doc : value) : JobExecution :=
  {| jobId := string_field "jobId" doc "";
     thingName := string_field "thingName" doc "";
     jobDocument := map_field "jobDocument" doc None;
     status := string_field "status" doc "";
     statusDetails := map_field "statusDetails" doc None;
     queuedAt := int64_field "queuedAt" doc 0;
     startedAt := int64_field "startedAt" doc 0;
     lastUpdatedAt := int64_field "lastUpdatedAt" doc 0;
     versionNumber := int64_field "versionNumber" doc 0;
     executionNumber := int64_field "executionNumber" doc 0 |}.

Definition quote : string := String "034" EmptyString.

Definition parseJobMessage (msg : Message) : JobExecution * option JobError :=
  let doc := Unmarshal_map (Document msg) in
  match index "execution" doc with
  | None =>
      (zero_JobExecution,
       Some {| ErrCode := "ERR_INVALID_JOB";
               ErrMessage := "missing " +:+ quote +:+ "execution" +:+ quote
                             +:+ " from payload: " +:+ Payload msg |})
  | Some execution =>
      (Unmarshal_JobExecution (Marshal_interface execution), None)
  end.

(** [jobHandler] returns the job it starts [config.Handler] on, in a
    goroutine of its own, or [None] when it starts none. *)
Definition jobHandler (msg : Message) : Go Client (option JobExecution) :=
  match parseJobMessage msg with
  | (_, Some err) => mret None
  | (job, None) =>
      thing ← gets (λ c, ThingName (config c));
      let job := with_thingName thing job in
      subscribeToUpdates job;;
      mret (Some job)
  end.

End awsiotjobs.

(** ** Package [mendercmd] *)

Module mendercmd.
Import awsiotjobs.

(** What [Install] sends: a line on the progress channel, or its result
    on the [done] channel. *)
Inductive signal : Type :=
| progress_line (text : string)
| done_with (err : option string).

(** [Commander], by what an implementation answers.  [Install] runs in a
    goroutine of its own; it is described by the signals it sends, each
    with the time the receiver has been waiting when the send is ready. *)
Record Commander : Type := {
  Commit_returns : option string;
  Rollback_returns : option string;
  Install_sends : string → list (Duration * signal)
}.

(** The time [Install] takes at least: the waits up to its result; [None]
    when it never sends one. *)
Fixpoint ends_after (signals : list (Duration * signal)) : option Duration :=
  match signals with
  | [] => None
  | (after, done_with _) :: _ => Some after
  | (after, progress_line _) :: later => Z.add after <$> ends_after later
  end.

Definition is_progress (s : Duration * signal) : bool :=
  match s.2 with
  | progress_line _ => true
  | done_with _ => false
  end.

(** The texts of the progress lines among signals. *)
Definition texts (signals : list (Duration * signal)) : list string :=
  omap (λ s, match s.2 with progress_line text => Some text | done_with _ => None end)
       signals.

(** A run of the [mender] binary: the lines read from its standard
    output, each with the time the reader waits for it, the time it then
    takes to exit, and the error of [cmd.Wait()]. *)
Record mender_run : Type := {
  prints : list (Duration * string);
  exits_after : Duration;
  exits_with : option string
}.

(** [execMender(done, progress, args...)], for a run of the binary: the
    signals it sends and the error it returns.  A nil channel ([false])
    is not sent on; the lines are then read without a stop, and the
    result is ready when the binary has exited. *)
Definition execMender (done progress : bool) (run : mender_run)
  : list (Duration * signal) * option string :=
  let lines :=
    if progress then (λ l, (l.1, progress_line l.2)) <$> prints run else [] in
  let result :=
    if done
    then [((if progress then exits_after run
            else foldr (λ l t, l.1 + t) (exits_after run) (prints run))%Z,
           done_with (exits_with run))]
    else [] in
  (lines ++ result, exits_with run).

(** [MenderCommand], for a [mender] binary given by its run on each
    argument list. *)
Definition MenderCommand (mender : list string → mender_run) : Commander :=
  {| Commit_returns := (execMender false false (mender ["-commit"])).2;
     Rollback_returns := (execMender false false (mender ["-rollback"])).2;
     Install_sends := λ url, (execMender true true (mender ["-install"; url])).1 |}.

End mendercmd.

(** ** Package [mender] *)

Module mender.
Import json mendercmd.
Import awsiotjobs (Duration, Second, Minute, JobError, ErrCode, ErrMessage,
                   JobDocument, StatusDetails, error, errorString, job_error).

Definition timeout : Duration := (10 * Minute)%Z.

(** What a [JobExecutioner] answers to its accessors.  Its other methods
    are calls the job makes; they are recorded. *)
Record JobExecutioner : Type := {
  GetJobDocument : JobDocument;
  GetStatusDetails : StatusDetails;
  GetThingName : string;
  GetJobID : string
}.

Record State : Type := {
  Step : string
}.

Record Job : Type := {
  Operation : string;
  URL : string;
  menderState : State;
  execution : JobExecutioner
}.

Definition with_Step (step : string) (mj : Job) : Job :=
  {| Operation := Operation mj; URL := URL mj;
     menderState := {| Step := step |}; execution := execution mj |}.

(** The calls a job makes: on its [JobExecutioner], on its [Commander],
    and the [shutdown -r now] command. *)
Inductive call : Type :=
| InProgress (details : StatusDetails)
| Success (details : StatusDetails)
| Fail (err : JobError)
| Reject (err : JobError)
| Terminate
| Publish (topic : string) (qos : Z) (payload : value)
| Install (url : string)
| Commit
| Rollback
| Shutdown.

(** The host: its clock, in nanoseconds since the epoch, and the error of
    the [shutdown] command, if it fails. *)
Record Host : Type := {
  clock : Z;
  Shutdown_returns : option string
}.

(** A run of one job: the job record [mj], the host, the calls made. *)
Record Run : Type := {
  mj : Job;
  host : Host;
  calls : list call
}.

Definition Do (A : Type) : Type := Run → A * Run.

#[global] Instance Do_ret : MRet Do := λ A a r, (a, r).
#[global] Instance Do_bind : MBind Do := λ A B k m r, let (a, r') := m r in k a r'.

Definition this : Do Job := λ r, (mj r, r).

Definition now : Do Z := λ r, (clock (host r), r).

Definition does (c : call) : Do () := λ r,
  ((), {| mj := mj r; host := host r; calls := calls r ++ [c] |}).

Definition set_Step (step : string) : Do () := λ r,
  ((), {| mj := with_Step step (mj r); host := host r; calls := calls r |}).

(** The host after a wait of [d]. *)
Definition later_by (d : Duration) (h : Host) : Host :=
  {| clock := (clock h + Z.max 0 d)%Z; Shutdown_returns := Shutdown_returns h |}.

Definition elapse (d : Duration) : Do () := λ r,
  ((), {| mj := mj r; host := later_by d (host r); calls := calls r |}).

Definition step_details (step : string) : StatusDetails :=
  Some [("step", Str step)].

Definition progress (step : string) : Do () :=
  set_Step step;;
  does (InProgress (step_details step)).

Definition success (step : string) : Do () :=
  set_Step step;;
  does (Success (step_details step)).

Definition fail (err : JobError) : Do () :=
  does (Fail err).

Definition reject (err : JobError) : Do () :=
  does (Reject err).

Definition reportProgress (p : string) : Do () :=
  t ← now;
  job ← this;
  let payload := Obj (set "ts" (Num (t / Second))
                     (set "progress" (Str (Marshal_string p)) [])) in
  let topic := "mender/" +:+ GetThingName (execution job) +:+ "/job/"
               +:+ GetJobID (execution job) +:+ "/progress" in
  does (Publish topic 0 payload).

(** The goroutine that reboots the device. *)
Definition reboot : Do () :=
  does Shutdown;;
  failed ← (λ r, (Shutdown_returns (host r), r));
  match failed with
  | Some msg => fail {| ErrCode := "ERROR_UNABLE_TO_REBOOT"; ErrMessage := msg |}
  | None => does Terminate
  end.

(** The [for { select { ... } }] loop of the install.  Every turn waits
    for the next signal of [Install] and starts a timer of its own
    ([time.After(timeout)]); the signal is received when it is ready
    before the timer fires.  When [Install] sends nothing more, only the
    timer is left. *)
Fixpoint wait (timeout : Duration) (signals : list (Duration * signal))
  : Do (option error) :=
  let timed_out :=
    let jobErr := {| ErrCode := "ERR_MENDER_INSTALL_TIMEOUT";
                     ErrMessage := "mender timed out" |} in
    elapse timeout;;
    fail jobErr;;
    mret (Some (job_error jobErr)) in
  match signals with
  | [] => timed_out
  | (after, sig) :: later =>
      if (timeout <=? after)%Z then timed_out
      else
        elapse after;;
        match sig with
        | progress_line line =>
            reportProgress line;;
            wait timeout later
        | done_with (Some msg) =>
            let jobErr := {| ErrCode := "ERR_MENDER_INSTALL_FAILED";
                             ErrMessage := msg |} in
            fail jobErr;;
            mret (Some (job_error jobErr))
        | done_with None =>
            progress "rebooting";;
            reboot;;
            mret None
        end
  end.

Definition exec (cmd : Commander) (timeout : Duration) : Do (option error) :=
  job ← this;
  if String.eqb (Operation job) "mender_install" then
    if String.eqb (Step (menderState job)) "rebooting" then
      reportProgress "rebooted";;
      does Commit;;
      match Commit_returns cmd with
      | Some _ =>
          let jobErr := {| ErrCode := "ERR_MENDER_COMMIT";
                           ErrMessage := "error committing" |} in
          fail jobErr;;
          mret (Some (job_error jobErr))
      | None =>
          success "committed";;
          mret None
      end
    else
      progress "installing";;
      does (Install (URL job));;
      wait timeout (Install_sends cmd (URL job))
  else if String.eqb (Operation job) "mender_rollback" then
    does Rollback;;
    match Rollback_returns cmd with
    | Some msg =>
        fail {| ErrCode := "ERR_MENDER_ROLLBACK_FAIL";
                ErrMessage := "unable to run rollback" |};;
        mret (Some (errorString msg))
    | None =>
        success "rolled_back";;
        mret None
    end
  else mret None.

Definition parseJobDocument (jobExecution : JobExecutioner) : Job * option JobError :=
  let jobDocument := Marshal_map (GetJobDocument jobExecution) in
  let job := {| Operation := string_field "operation" jobDocument "";
                URL := string_field "url" jobDocument "";
                menderState := {| Step := "" |};
                execution := jobExecution |} in
  let decoded :=
    let statusDetails := Marshal_map (GetStatusDetails jobExecution) in
    (with_Step (string_field "step" statusDetails "") job, None) in
  if String.eqb (Operation job) "mender_install" then
    if (String.length (URL job) =? 0)%nat
    then (job, Some {| ErrCode := "ERR_MENDER_MISSING_URL";
                       ErrMessage := "missing url parameter" |})
    else decoded
  else if String.eqb (Operation job) "mender_rollback" then decoded
  else (job, Some {| ErrCode := "ERR_JOB_INVALID_OPERATION";
                     ErrMessage := "unrecognized or missing operation" |}).

Definition start (job : Job) (h : Host) : Run :=
  {| mj := job; host := h; calls := [] |}.

(** [Process] returns at once; the run it starts ([job.exec] in a
    goroutine, with the [mender] tool [cmd] and the package's [timeout])
    is given as it ends.  A [switch] case of Go does not fall through to
    the next one. *)
Definition Process (jobExecution : JobExecutioner) (cmd : Commander) (h : Host) : Run :=
  match parseJobDocument jobExecution with
  | (job, Some jobError) =>
      if String.eqb (ErrCode jobError) "ERR_MENDER_MISSING_URL" then
        start job h
      else if String.eqb (ErrCode jobError) "ERR_JOB_INVALID_OPERATION" then
        (reject jobError (start job h)).2
      else start job h
  | (job, None) => (exec cmd timeout (start job h)).2
  end.

End mender.

(** ** The agent: [goagent.go] sets [mender.Process] as the job handler *)

Module goagent.
Import awsiotjobs.

(** A [*JobExecution] as the [JobExecutioner] handed to the handler. *)
Definition executioner (c : Client) (je : JobExecution) : mender.JobExecutioner :=
  {| mender.GetJobDocument := GetJobDocument je;
     mender.GetStatusDetails := GetStatusDetails je;
     mender.GetThingName := ThingName (config c);
     mender.GetJobID := GetJobID je |}.

(** A message arrives on a job topic: the dispatcher handles it, and the
    handler, if it is started, makes its calls. *)
Definition deliver (msg : Message) (cmd : mendercmd.Commander) (h : mender.Host)
  : Go Client (list mender.call) :=
  started ← jobHandler msg;
  c ← gets id;
  match started with
  | None => mret []
  | Some je => mret (mender.calls (mender.Process (executioner c je) cmd h))
  end.

(** The status reports of [JobExecution]. *)
Inductive report : Type :=
| InProgress (details : StatusDetails)
| Success (details : StatusDetails)
| Fail (err : JobError)
| Reject (err : JobError).

Definition terminal (r : report) : bool :=
  match r with
  | InProgress _ => false
  | _ => true
  end.

Definition send (r : report) : Go Store (option error) :=
  match r with
  | InProgress details => awsiotjobs.InProgress details
  | Success details => awsiotjobs.Success details
  | Fail err => awsiotjobs.Fail err
  | Reject err => awsiotjobs.Reject err
  end.

(** A call of the job, made on the execution record.  The job only logs
    the error of a report; the update tool and the reboot command do not
    touch the record. *)
Definition perform (c : mender.call) : Go Store () :=
  match c with
  | mender.InProgress details => send (InProgress details);; mret ()
  | mender.Success details => send (Success details);; mret ()
  | mender.Fail err => send (Fail err);; mret ()
  | mender.Reject err => send (Reject err);; mret ()
  | mender.Terminate => Terminate
  | mender.Publish topic qos payload => Publish topic qos payload
  | _ => mret ()
  end.

(** The calls of a run, made in turn on the execution record. *)
Fixpoint replay (cs : list mender.call) : Go Store () :=
  match cs with
  | [] => mret ()
  | c :: cs' => perform c;; replay cs'
  end.

(** The status update of a record as it stands: what [sendUpdate]
    publishes. *)
Definition status_update (s : Store) : Publication :=
  {| pub_topic := jobBaseTopic (ThingName (config (client s))) (jobId (job s)) +:+ "/update";
     pub_qos := 1;
     pub_retained := false;
     pub_payload := getUpdatePayload (job s) |}.

(** The record after a report has set its status and details. *)
Definition reported (r : report) (je : JobExecution) : JobExecution :=
  match r with
  | InProgress details => with_status "IN_PROGRESS" details je
  | Success details => with_status "SUCCEEDED" details je
  | Fail err => with_status "FAILED" (Some [("error", json.Str (JobError_Error err))]) je
  | Reject err => with_status "REJECTED" (Some [("error", json.Str (JobError_Error err))]) je
  end.

(** What the MQTT client has published, none when there is no client. *)
Definition sent (s : Store) : list Publication :=
  match Iot (client s) with
  | Some iot => published iot
  | None => []
  end.

(** The handler subscribed on a topic. *)
Definition subscribed (topic : string) (c : Client) : option MessageHandler :=
  iot ← Iot c; subscriptions iot !! topic.

(** Whether a call of the job is a status report, and whether it is a
    call on the update tool. *)
Definition is_report (c : mender.call) : bool :=
  match c with
  | mender.InProgress _ | mender.Success _ | mender.Fail _ | mender.Reject _ => true
  | _ => false
  end.

Definition on_updater (c : mender.call) : bool :=
  match c with
  | mender.Install _ | mender.Commit | mender.Rollback => true
  | _ => false
  end.

Definition is_Fail (c : mender.call) : bool :=
  match c with
  | mender.Fail _ => true
  | _ => false
  end.

(** The errors the job reports, by their codes. *)
Definition install_timeout : JobError :=
  {| ErrCode := "ERR_MENDER_INSTALL_TIMEOUT"; ErrMessage := "mender timed out" |}.

Definition install_failed (msg : string) : JobError :=
  {| ErrCode := "ERR_MENDER_INSTALL_FAILED"; ErrMessage := msg |}.

Definition unable_to_reboot (msg : string) : JobError :=
  {| ErrCode := "ERROR_UNABLE_TO_REBOOT"; ErrMessage := msg |}.

Definition commit_failed : JobError :=
  {| ErrCode := "ERR_MENDER_COMMIT"; ErrMessage := "error committing" |}.

Definition rollback_failed : JobError :=
  {| ErrCode := "ERR_MENDER_ROLLBACK_FAIL"; ErrMessage := "unable to run rollback" |}.

Definition missing_url : JobError :=
  {| ErrCode := "ERR_MENDER_MISSING_URL"; ErrMessage := "missing url parameter" |}.

Definition invalid_operation : JobError :=
  {| ErrCode := "ERR_JOB_INVALID_OPERATION";
     ErrMessage := "unrecognized or missing operation" |}.

(** The publish that relays a progress line of the tool at time [t]. *)
Definition relay (job : mender.Job) (t : Z) (line : string) : mender.call :=
  mender.Publish
    ("mender/" +:+ mender.GetThingName (mender.execution job) +:+ "/job/"
     +:+ mender.GetJobID (mender.execution job) +:+ "/progress")
    0 (json.Obj [("progress", json.Str (json.Marshal_string line));
                 ("ts", json.Num (t / Second))]).

(** The end of the reboot goroutine. *)
Definition rebooted (h : mender.Host) : mender.call :=
  match mender.Shutdown_returns h with
  | Some msg => mender.Fail (unable_to_reboot msg)
  | None => mender.Terminate
  end.

(** The status reports among the calls of a job, and its calls on the
    update tool. *)
Definition reports (cs : list mender.call) : list mender.call :=
  filter (λ c, is_report c) cs.

Definition updater_calls (cs : list mender.call) : list mender.call :=
  filter (λ c, on_updater c) cs.

(** The MQTT client after one more publish, and after a topic is
    released. *)
Definition publish_on (p : Publication) (iot : IMqttClient) : IMqttClient :=
  {| published := published iot ++ [p];
     subscriptions := subscriptions iot;
     tokens := tl (tokens iot) |}.

Definition release (topic : string) (iot : IMqttClient) : IMqttClient :=
  {| published := published iot;
     subscriptions := delete topic (subscriptions iot);
     tokens := tokens iot |}.

(** What the wait on the token of the next publish gives: its error when
    it completes in time, nothing otherwise. *)
Definition answer (iot : IMqttClient) : option error :=
  let token := hd acknowledged (tokens iot) in
  if WaitTimeout token publishTimeout then errorString <$> Error token else None.

(** [expectedVersion] of a published status update. *)
Definition expectedVersion (p : Publication) : option json.value :=
  json.get "expectedVersion" (json.members_of (pub_payload p)).

(** The job topics of the dispatcher, after the thing's prefix. *)
Definition job_topics : list string :=
  ["notify-next"; "+/get/accepted"; "+/get/rejected";
   "start-next/accepted"; "start-next/rejected"].

(** The terminal reports among the calls of a job. *)
Definition is_terminal (c : mender.call) : bool :=
  match c with
  | mender.Success _ | mender.Fail _ | mender.Reject _ => true
  | _ => false
  end.

Definition terminal_reports (cs : list mender.call) : list mender.call :=
  filter (λ c, is_terminal c) cs.

(** A call that relays a progress line of the tool. *)
Definition relays_line (job : mender.Job) (c : mender.call) (line : string) : Prop :=
  ∃ t, c = relay job t line.

Definition is_Publish (c : mender.call) : bool :=
  match c with
  | mender.Publish _ _ _ => true
  | _ => false
  end.

(** A signal of the tool that is a progress line and is ready before a
    timer of [t] fires. *)
Definition line_in_time (t : Duration) (s : Duration * mendercmd.signal) : Prop :=
  mendercmd.is_progress s = true ∧ (s.1 < t)%Z.

End goagent.

(** ** Sample data: a device, jobs, messages and update tools *)

Module sample.
Import json awsiotjobs.

Definition thing_config : Config :=
  {| Port := 8883; CaCertPath := "rootCA.pem"; CertificatePath := "cert.pem";
     PrivateKeyPath := "private.key"; Endpoint := "iot.example";
     ThingName := "rpi"; ClientID := "rpi" |}.

(** A client that is connected and has published nothing; [tokens] are
    the answers to its next publishes. *)
Definition connected (answers : list Token) : Client :=
  {| Iot := Some {| published := []; subscriptions := ∅; tokens := answers |};
     config := thing_config |}.

(** The agent after [subscribe] and after one job was dispatched. *)
Definition listening (je : JobExecution) : Client :=
  ((subscribe;; subscribeToUpdates je) (connected [])).2.

Definition install_job : JobExecution :=
  {| jobId := "j1"; thingName := "rpi";
     jobDocument := Some [("operation", Str "mender_install");
                          ("url", Str "https://x/fw.pkg")];
     status := "QUEUED"; statusDetails := Some [("step", Str "installing")];
     queuedAt := 1573560519; startedAt := 1573560656;
     lastUpdatedAt := 1573560656; versionNumber := 1; executionNumber := 1 |}.

(** A token of a publish that the broker never answers. *)
Definition unanswered : Token := {| completion := None; failure := None |}.

(** A token of a publish that fails after one second. *)
Definition refused : Token :=
  {| completion := Some Second; failure := Some "connection lost" |}.

Definition committed : StatusDetails := Some [("step", Str "committed")].

Definition reboot_failed : JobError :=
  {| ErrCode := "ERROR_UNABLE_TO_REBOOT"; ErrMessage := "exit status 1" |}.

(** An accepted echo of the service with [versionNumber] 2. *)
Definition echo : Message :=
  {| Topic := "$aws/things/rpi/jobs/j1/update/accepted";
     Payload := "{...}";
     Document := Some (Obj [("executionState",
                             Obj [("status", Str "IN_PROGRESS");
                                  ("statusDetails", Obj [("step", Str "installing")]);
                                  ("versionNumber", Num 2)]);
                            ("timestamp", Num 1573561673)]) |}.

(** The answer of the service when no job is pending. *)
Definition no_job : Message :=
  {| Topic := "$aws/things/rpi/jobs/start-next/accepted";
     Payload := "{...}";
     Document := Some (Obj [("clientToken", Str "client-token");
                            ("timestamp", Num 1573561673)]) |}.

(** [JobExecutionMock] of the package's tests, around a job document and
    status details. *)
Definition JobExecutionMock (doc : JobDocument) (details : StatusDetails)
  : mender.JobExecutioner :=
  {| mender.GetJobDocument := doc;
     mender.GetStatusDetails := details;
     mender.GetThingName := "thingName";
     mender.GetJobID := "AA" |}.

(** The execution of [TestParseJobMessageInstallMissingUrl]. *)
Definition install_without_url : mender.JobExecutioner :=
  JobExecutionMock (Some [("operation", Str "mender_install")]) (Some []).

(** The execution of [TestProcessMissingUrlFail]; its operation is
    misspelt. *)
Definition misspelt_install : mender.JobExecutioner :=
  JobExecutionMock (Some [("operation", Str "mender_installl")]) (Some []).

Definition testTimeout : Duration := (500 * 1000000)%Z.

Definition install_of (step : string) : mender.Job :=
  {| mender.Operation := "mender_install";
     mender.URL := "https://x/fw.pkg";
     mender.menderState := {| mender.Step := step |};
     mender.execution := goagent.executioner (connected []) install_job |}.

Definition booted : mender.Host :=
  {| mender.clock := 1573561673000000000; mender.Shutdown_returns := None |}.

(** The test doubles [CommandFail] and [CommandTimeout]. *)
Definition CommandFail : mendercmd.Commander :=
  {| mendercmd.Commit_returns := Some "commit error";
     mendercmd.Rollback_returns := Some "rollback error";
     mendercmd.Install_sends := λ _,
       [(0%Z, mendercmd.done_with (Some "install error"))] |}.

Definition CommandTimeout : mendercmd.Commander :=
  {| mendercmd.Commit_returns := Some "commit error";
     mendercmd.Rollback_returns := Some "rollback error";
     mendercmd.Install_sends := λ _, [] |}.

(** A tool that works. *)
Definition CommandOk (sends : list (Duration * mendercmd.signal)) : mendercmd.Commander :=
  {| mendercmd.Commit_returns := None;
     mendercmd.Rollback_returns := None;
     mendercmd.Install_sends := λ _, sends |}.

(** An install that reports after six minutes and ends well six minutes
    later: twelve minutes in all. *)
Definition slow_install : list (Duration * mendercmd.signal) :=
  [((6 * Minute)%Z, mendercmd.progress_line "50%");
   ((6 * Minute)%Z, mendercmd.done_with None)].

(** An install that reports once and then hangs; were it to end, nobody
    would be receiving. *)
Definition stuck_install : list (Duration * mendercmd.signal) :=
  [(Second, mendercmd.progress_line "5%");
   ((11 * Minute)%Z, mendercmd.done_with None)].


(** A message whose [execution] is [null]. *)
Definition null_execution : Message :=
  {| Topic := "$aws/things/rpi/jobs/notify-next";
     Payload := "{...}";
     Document := Some (Obj [("timestamp", Num 1573561673); ("execution", Null)]) |}.

(** A message on the echo topic that is not JSON. *)
Definition garbled_echo : Message :=
  {| Topic := "$aws/things/rpi/jobs/j1/update/accepted";
     Payload := "<html>";
     Document := None |}.

Definition rollback_of (step : string) : mender.Job :=
  {| mender.Operation := "mender_rollback";
     mender.URL := "";
     mender.menderState := {| mender.Step := step |};
     mender.execution := goagent.executioner (connected []) install_job |}.

Definition reboot_refused : mender.Host :=
  {| mender.clock := 1573561673000000000;
     mender.Shutdown_returns := Some "exit status 1" |}.

(** A [mender] binary that installs in two steps of a second each. *)
Definition mender_binary (exit : option string) (args : list string)
  : mendercmd.mender_run :=
  {| mendercmd.prints := [(Second, "5%"); (Second, "100%")];
     mendercmd.exits_after := Second;
     mendercmd.exits_with := exit |}.

End sample.

(** * Properties *)

(** ** The status reporter *)

Module reporter.
Import json awsiotjobs goagent.

Ltac go_unfold :=
  unfold mbind, mret, Go_bind, Go_ret, gets, modify, panic, on_client, on_job,
    on_Iot in *.

Lemma sendUpdate_connected (s : Store) (iot : IMqttClient) :
  Iot (client s) = Some iot →
  sendUpdate s =
    (Returns (answer iot),
     {| client := with_Iot (publish_on (status_update s) iot) (client s);
        job := job s |}).
Proof.
  destruct s as [[? cfg] je]; cbn; intros ->.
  unfold sendUpdate, Iot_Publish, answer. go_unfold. cbn.
  destruct (WaitTimeout _ _); cbn; [|done].
  destruct (Error _); cbn; done.
Qed.

Lemma sendUpdate_nil (s : Store) :
  Iot (client s) = None → sendUpdate s = (Panics "Iot client not set", s).
Proof.
  destruct s as [[? cfg] je]; cbn; intros ->. done.
Qed.

(** The store after a report on a connected client: the record is set,
    one status update is published, and a terminal report whose publish
    gave no error releases the echo topic. *)
Lemma send_connected (r : report) (s : Store) (iot : IMqttClient) :
  Iot (client s) = Some iot →
  let s1 := {| client := client s; job := reported r (job s) |} in
  let iot1 := publish_on (status_update s1) iot in
  send r s =
    (Returns (match r, answer iot with
              | (Fail err | Reject err), Some _ => Some (job_error err)
              | _, e => e
              end),
     {| client := with_Iot (if terminal r && bool_decide (answer iot = None)
                            then release (updateTopic (client s)) iot1
                            else iot1) (client s);
        job := reported r (job s) |}).
Proof.
  destruct s as [[? cfg] je]; cbn; intros ->.
  destruct r; cbn;
    unfold awsiotjobs.InProgress, awsiotjobs.Success, awsiotjobs.Fail,
      awsiotjobs.Reject, sendUpdate, unsubscribeFromUpdates, Iot_Publish,
      Iot_Unsubscribe, answer;
    go_unfold; cbn;
    destruct (WaitTimeout _ _); cbn; try done;
    destruct (Error _); cbn; done.
Qed.

(** A report sets the record before anything can go wrong. *)
Lemma send_sets_record (r : report) (s : Store) :
  job (send r s).2 = reported r (job s).
Proof.
  destruct (Iot (client s)) as [iot|] eqn:Hiot.
  - by rewrite (send_connected r s iot Hiot).
  - destruct s as [[? cfg] je]; cbn in Hiot; subst. by destruct r.
Qed.

Lemma sent_after_report (r : report) (s : Store) :
  is_Some (Iot (client s)) →
  sent (send r s).2 =
    sent s ++ [status_update {| client := client s; job := reported r (job s) |}].
Proof.
  intros [iot Hiot]. rewrite (send_connected r s iot Hiot). unfold sent. cbn.
  rewrite Hiot. by destruct (terminal r && _).
Qed.

Lemma connected_after_report (r : report) (s : Store) :
  is_Some (Iot (client s)) → is_Some (Iot (client (send r s).2)).
Proof.
  intros [iot Hiot]. rewrite (send_connected r s iot Hiot). cbn. eauto.
Qed.

Lemma expectedVersion_status_update (s : Store) :
  expectedVersion (status_update s) = Some (Num (versionNumber (job s))).
Proof. reflexivity. Qed.

Lemma versionNumber_reported (r : report) (je : JobExecution) :
  versionNumber (reported r je) = versionNumber je.
Proof. by destruct r. Qed.

Lemma jobBaseTopic_inj (thing rest1 rest2 : string) :
  jobBaseTopic thing rest1 = jobBaseTopic thing rest2 → rest1 = rest2.
Proof.
  unfold jobBaseTopic. intros H.
  by do 3 apply String.app_inj in H.
Qed.

Lemma unsubscribe_connected (c : Client) (iot : IMqttClient) :
  Iot c = Some iot →
  let thing := ThingName (config c) in
  unsubscribe c =
    (Returns (),
     with_Iot
       (release (jobBaseTopic thing "start-next/rejected")
       (release (jobBaseTopic thing "start-next/accepted")
       (release (jobBaseTopic thing "+/get/rejected")
       (release (jobBaseTopic thing "+/get/accepted")
       (release (jobBaseTopic thing "notify-next") iot))))) c).
Proof.
  destruct c as [? cfg]; cbn; intros ->. done.
Qed.

(** C10: [Fail] and [Reject] replace the record's [statusDetails] by the
    single entry ["error"], whose value is ["code <ErrCode>, msg:
    <ErrMessage>"]; a ["step"] stored before is gone. *)
Theorem Fail_and_Reject_replace_statusDetails (s : Store) (err : JobError) :
  let details :=
    Some [("error", Str ("code " +:+ ErrCode err +:+ ", msg: " +:+ ErrMessage err))] in
  statusDetails (job (awsiotjobs.Fail err s).2) = details ∧
  statusDetails (job (awsiotjobs.Reject err s).2) = details ∧
  index "step" details = None.
Proof.
  intros details. split_and!.
  - exact (f_equal statusDetails (send_sets_record (Fail err) s)).
  - exact (f_equal statusDetails (send_sets_record (Reject err) s)).
  - done.
Qed.

(** C2, as the spec has it, fails: a second [Success] on a record that a
    first [Success] has completed publishes a second status update. *)
Lemma second_Success_publishes_again :
  let s0 := {| client := sample.connected []; job := sample.install_job |} in
  let s1 := (awsiotjobs.Success sample.committed s0).2 in
  (awsiotjobs.Success sample.committed s0).1 = Returns None ∧
  status (job s1) = "SUCCEEDED" ∧
  length (sent s1) = 1 ∧
  length (sent (awsiotjobs.Success sample.committed s1).2) = 2 ∧
  sent (awsiotjobs.Success sample.committed s1).2 ≠ sent s1.
Proof. vm_compute. split_and!; done. Qed.

(** C2, amended: the record keeps no terminal latch.  [Success], [Fail]
    and [Reject] publish one status update at every call, also when a
    terminal report has completed on the record before. *)
Theorem terminal_report_publishes_at_every_call
    (s : Store) (first again : report) :
  is_Some (Iot (client s)) →
  terminal first = true →
  terminal again = true →
  let s1 := (send first s).2 in
  sent (send again s1).2 =
    sent s1 ++ [status_update {| client := client s1;
                                 job := reported again (job s1) |}].
Proof.
  intros Hiot _ _ s1. apply sent_after_report.
  by apply connected_after_report.
Qed.

Lemma terminal_report_publishes_at_every_call_witness :
  let s := {| client := sample.connected []; job := sample.install_job |} in
  let s1 := (send (Success sample.committed) s).2 in
  sent (send (Fail sample.reboot_failed) s1).2 =
    sent s1 ++ [status_update {| client := client s1;
                                 job := reported (Fail sample.reboot_failed) (job s1) |}].
Proof.
  apply (terminal_report_publishes_at_every_call
           {| client := sample.connected []; job := sample.install_job |}
           (Success sample.committed) (Fail sample.reboot_failed)).
  - vm_compute. eauto.
  - reflexivity.
  - reflexivity.
Defined.

(** C3, as the spec has it, fails: when the broker never answers the
    publish, the wait of two seconds expires and [InProgress] returns nil. *)
Lemma InProgress_unanswered_returns_nil :
  let s := {| client := sample.connected [sample.unanswered];
              job := sample.install_job |} in
  WaitTimeout sample.unanswered publishTimeout = false ∧
  (awsiotjobs.InProgress (Some [("step", Str "installing")]) s).1 = Returns None.
Proof. vm_compute. done. Qed.

(** C3, amended: [InProgress] publishes once and waits up to two seconds
    for the token.  It returns the token's error when the token completes
    within the wait, and nil when the wait expires; it does not retry. *)
Theorem InProgress_returns_error_of_completed_token
    (s : Store) (details : StatusDetails) (iot : IMqttClient) :
  Iot (client s) = Some iot →
  let token := hd acknowledged (tokens iot) in
  (awsiotjobs.InProgress details s).1 =
    Returns (if WaitTimeout token publishTimeout
             then errorString <$> Error token else None) ∧
  sent (awsiotjobs.InProgress details s).2 =
    sent s ++ [status_update {| client := client s;
                                job := with_status "IN_PROGRESS" details (job s) |}].
Proof.
  intros Hiot token. split.
  - change (awsiotjobs.InProgress details s) with (send (InProgress details) s).
    rewrite (send_connected (InProgress details) s iot Hiot). cbn.
    unfold answer. fold token. by destruct (WaitTimeout token _), (Error token).
  - apply (sent_after_report (InProgress details) s). eauto.
Qed.

Lemma InProgress_returns_error_of_completed_token_witness :
  let s := {| client := sample.connected [sample.refused];
              job := sample.install_job |} in
  (awsiotjobs.InProgress sample.committed s).1 =
    Returns (Some (errorString "connection lost")) ∧
  length (sent (awsiotjobs.InProgress sample.committed s).2) = 1.
Proof.
  pose proof (InProgress_returns_error_of_completed_token
                {| client := sample.connected [sample.refused];
                   job := sample.install_job |}
                sample.committed
                {| published := []; subscriptions := ∅;
                   tokens := [sample.refused] |}
                eq_refl) as [Hret Hsent].
  split.
  - exact Hret.
  - cbv zeta in Hsent. rewrite Hsent. reflexivity.
Defined.

Lemma updateHandler_run (msg : Message) (s : Store) :
  updateHandler msg s =
    (Returns (),
     {| client := client s;
        job := with_version
                 (es_VersionNumber (ExecutionState (Unmarshal_updatePayload (Document msg))))
                 (es_StatusDetails (ExecutionState (Unmarshal_updatePayload (Document msg))))
                 (job s) |}).
Proof. reflexivity. Qed.

Lemma last_sent_after_report (r : report) (s : Store) :
  is_Some (Iot (client s)) →
  last (sent (send r s).2) ≫= expectedVersion = Some (Num (versionNumber (job s))).
Proof.
  intros Hiot. rewrite (sent_after_report r s Hiot), last_snoc.
  cbn [mbind option_bind].
  rewrite expectedVersion_status_update. cbn [job].
  by rewrite versionNumber_reported.
Qed.

(** *** Decoding the echo *)

(** The members after the last one that names a field do not count. *)
Lemma decode_last_named {A : Type} (tag : string) (g : A → value → A)
    (pre post : list (string * value)) (k : string) (v : value) (z : A) :
  names tag k = true →
  Forall (λ kv, names tag kv.1 = false) post →
  fold_left (λ acc kv, if names tag kv.1 then g acc kv.2 else acc)
            (pre ++ (k, v) :: post) z
    = g (fold_left (λ acc kv, if names tag kv.1 then g acc kv.2 else acc) pre z) v.
Proof.
  intros Hk Hpost. rewrite fold_left_app. cbn [fold_left fst snd]. rewrite Hk.
  generalize (g (fold_left (λ acc kv, if names tag kv.1 then g acc kv.2 else acc)
                   pre z) v).
  induction Hpost as [|kv post Hkv _ IH]; intros acc; [ done | ].
  cbn [fold_left]. by rewrite Hkv.
Qed.

Lemma member_is_last_named (tag : string) (members : list (string * value))
    (v : value) :
  member tag members = Some v →
  ∃ pre k post,
    members = pre ++ (k, v) :: post ∧
    names tag k = true ∧
    Forall (λ kv, names tag kv.1 = false) post.
Proof.
  unfold member. induction members as [|[k' v'] members IH] using rev_ind;
    [ done | ].
  rewrite fold_left_app. cbn [fold_left fst snd].
  destruct (names tag k') eqn:Hk'.
  - intros [= ->]. exists members, k', []. by split_and!.
  - intros (pre & k & post & -> & Hk & Hpost)%IH.
    exists pre, k, (post ++ [(k', v')]). rewrite <- app_assoc. split_and!; try done.
    apply Forall_app. split; [ done | ]. by constructor.
Qed.

Lemma struct_field_of_member (tag : string) (members state : list (string * value)) :
  member tag members = Some (Obj state) →
  ∃ earlier, struct_field tag (Obj members) = Obj (earlier ++ state).
Proof.
  intros (pre & k & post & -> & Hk & Hpost)%member_is_last_named.
  eexists. unfold struct_field. cbn [members_of].
  exact (decode_last_named tag
           (λ acc v, match v with
                     | Obj members => Obj (members_of acc ++ members)
                     | _ => acc
                     end)
           pre post k (Obj state) Null Hk Hpost).
Qed.

Lemma int64_field_of_member (tag : string) (earlier state : list (string * value))
    (n zero : Z) :
  member tag state = Some (Num n) →
  (min_int64 ≤ n ≤ max_int64)%Z →
  int64_field tag (Obj (earlier ++ state)) zero = n.
Proof.
  intros (pre & k & post & -> & Hk & Hpost)%member_is_last_named [Hmin Hmax].
  unfold int64_field. cbn [members_of]. rewrite app_assoc.
  etrans;
    [ exact (decode_last_named tag
               (λ acc v, match v with
                         | Num n => if (min_int64 <=? n)%Z && (n <=? max_int64)%Z
                                    then n else acc
                         | _ => acc
                         end)
               (earlier ++ pre) post k (Num n) zero Hk Hpost) | ].
  cbv beta iota.
  by rewrite (proj2 (Z.leb_le _ _) Hmin), (proj2 (Z.leb_le _ _) Hmax).
Qed.

(** The version the handler reads from an echo. *)
Lemma version_of_echo (echo : Message) (members state : list (string * value))
    (n : Z) :
  Document echo = Some (Obj members) →
  member "executionState" members = Some (Obj state) →
  member "versionNumber" state = Some (Num n) →
  (min_int64 ≤ n ≤ max_int64)%Z →
  es_VersionNumber (ExecutionState (Unmarshal_updatePayload (Document echo))) = n.
Proof.
  intros -> Hstate Hversion Hrange.
  change (int64_field "versionNumber"
            (struct_field "executionState" (Obj members)) 0 = n).
  destruct (struct_field_of_member _ _ _ Hstate) as [earlier ->].
  by apply int64_field_of_member.
Qed.

(** C6: a status is published with [expectedVersion] N; the echo handler
    then receives an accepted echo whose [executionState] carries the
    [versionNumber] N+1; the next status publish carries
    [expectedVersion] N+1. *)
Theorem echo_resynchronises_expectedVersion
    (s : Store) (first next : report) (echo : Message) (N : Z)
    (members state : list (string * value)) :
  is_Some (Iot (client s)) →
  versionNumber (job s) = N →
  Document echo = Some (Obj members) →
  member "executionState" members = Some (Obj state) →
  member "versionNumber" state = Some (Num (N + 1)) →
  (min_int64 ≤ N + 1 ≤ max_int64)%Z →
  let s1 := (send first s).2 in
  let s2 := (updateHandler echo s1).2 in
  let s3 := (send next s2).2 in
  last (sent s1) ≫= expectedVersion = Some (Num N) ∧
  last (sent s3) ≫= expectedVersion = Some (Num (N + 1)).
Proof.
  intros Hiot HN Hdoc Hstate Hversion Hrange s1 s2 s3.
  pose proof (version_of_echo echo members state (N + 1) Hdoc Hstate Hversion Hrange)
    as Hecho.
  split.
  - subst s1 N. by apply last_sent_after_report.
  - subst s3. rewrite last_sent_after_report.
    + subst s2. rewrite updateHandler_run. cbn [snd job with_version versionNumber].
      by rewrite Hecho.
    + subst s2. rewrite updateHandler_run. cbn [snd client].
      by apply connected_after_report.
Qed.

Lemma echo_resynchronises_expectedVersion_witness :
  let s := {| client := sample.connected []; job := sample.install_job |} in
  let s1 := (send (InProgress (Some [("step", Str "installing")])) s).2 in
  let s2 := (updateHandler sample.echo s1).2 in
  let s3 := (send (InProgress (Some [("step", Str "rebooting")])) s2).2 in
  last (sent s1) ≫= expectedVersion = Some (Num 1) ∧
  last (sent s3) ≫= expectedVersion = Some (Num 2).
Proof.
  apply (echo_resynchronises_expectedVersion
           {| client := sample.connected []; job := sample.install_job |}
           (InProgress (Some [("step", Str "installing")]))
           (InProgress (Some [("step", Str "rebooting")]))
           sample.echo 1
           [("executionState",
             Obj [("status", Str "IN_PROGRESS");
                  ("statusDetails", Obj [("step", Str "installing")]);
                  ("versionNumber", Num 2)]);
            ("timestamp", Num 1573561673)]
           [("status", Str "IN_PROGRESS");
            ("statusDetails", Obj [("step", Str "installing")]);
            ("versionNumber", Num 2)]).
  - vm_compute. eauto.
  - reflexivity.
  - reflexivity.
  - reflexivity.
  - reflexivity.
  - vm_compute. split; discriminate.
Defined.

(** C8, as the spec has it, fails: after [Terminate] the echo topic of
    the job is still subscribed. *)
Lemma Terminate_keeps_echo_subscription :
  let c := sample.listening sample.install_job in
  let s := {| client := c; job := sample.install_job |} in
  updateTopic c = "$aws/things/rpi/jobs/+/update/accepted" ∧
  subscribed (updateTopic c) c = Some (je_updateHandler "j1") ∧
  (Terminate s).1 = Returns () ∧
  subscribed (updateTopic c) (client (Terminate s).2) = Some (je_updateHandler "j1").
Proof. vm_compute. done. Qed.

(** C8, amended: [Terminate] publishes nothing and releases the five job
    topics of the client ([notify-next], [+/get/accepted],
    [+/get/rejected], [start-next/accepted], [start-next/rejected]); the
    echo topic [+/update/accepted] stays as it was. *)
Theorem Terminate_releases_the_job_topics (s : Store) :
  is_Some (Iot (client s)) →
  let s' := (Terminate s).2 in
  let thing := ThingName (config (client s)) in
  (Terminate s).1 = Returns () ∧
  sent s' = sent s ∧
  job s' = job s ∧
  (∀ rest, rest ∈ ["notify-next"; "+/get/accepted"; "+/get/rejected";
                   "start-next/accepted"; "start-next/rejected"] →
           subscribed (jobBaseTopic thing rest) (client s') = None) ∧
  subscribed (updateTopic (client s)) (client s')
    = subscribed (updateTopic (client s)) (client s).
Proof.
  intros [iot Hiot] s' thing. subst s'. unfold Terminate, on_client.
  rewrite (unsubscribe_connected (client s) iot Hiot). fold thing.
  unfold sent, subscribed. cbn. rewrite Hiot. cbn. split_and!; try done.
  - intros rest Hin.
    repeat (apply elem_of_cons in Hin as [-> | Hin]);
      [ .. | by apply elem_of_nil in Hin ];
      repeat (apply lookup_delete_None; first [ left; reflexivity | right ]).
  - unfold updateTopic.
    rewrite !lookup_delete_ne; [ done | .. ];
      intros Heq%jobBaseTopic_inj; discriminate.
Qed.

Lemma Terminate_releases_the_job_topics_witness :
  let c := sample.listening sample.install_job in
  let s := {| client := c; job := sample.install_job |} in
  subscribed "$aws/things/rpi/jobs/notify-next" c = Some client_jobHandler ∧
  subscribed "$aws/things/rpi/jobs/notify-next" (client (Terminate s).2) = None.
Proof.
  split.
  - vm_compute. reflexivity.
  - pose proof (Terminate_releases_the_job_topics
                  {| client := sample.listening sample.install_job;
                     job := sample.install_job |}) as H.
    destruct H as (_ & _ & _ & Hreleased & _).
    + vm_compute. eauto.
    + apply (Hreleased "notify-next"). apply list_elem_of_here.
Defined.

End reporter.

(** ** The dispatcher *)

Module dispatcher.
Import json awsiotjobs goagent.

(** C7: a message whose payload has no ["execution"] field is ignored.
    The handler returns without a panic, it starts no job handler, so no
    call reaches the update tool, and the client is as it was. *)
Theorem message_without_execution_is_ignored
    (msg : Message) (c : Client) (cmd : mendercmd.Commander) (h : mender.Host) :
  index "execution" (Unmarshal_map (Document msg)) = None →
  jobHandler msg c = (Returns None, c) ∧
  deliver msg cmd h c = (Returns [], c).
Proof.
  intros Hno.
  assert (Hjob : jobHandler msg c = (Returns None, c))
    by (unfold jobHandler, parseJobMessage; by rewrite Hno).
  split; [ done | ].
  unfold deliver, mbind, Go_bind. by rewrite Hjob.
Qed.

Lemma message_without_execution_is_ignored_witness :
  let c := sample.listening sample.install_job in
  jobHandler sample.no_job c = (Returns None, c) ∧
  deliver sample.no_job sample.CommandFail sample.booted c = (Returns [], c).
Proof.
  apply (message_without_execution_is_ignored sample.no_job
           (sample.listening sample.install_job) sample.CommandFail sample.booted).
  reflexivity.
Defined.

End dispatcher.

(** ** The update orchestrator *)

Module orchestrator.
Import json mendercmd mender.
Import awsiotjobs (Duration, Second, Minute, JobError, ErrCode, ErrMessage,
                   job_error, errorString).
Import goagent (is_report, on_updater, reports, updater_calls, relay, rebooted,
                install_timeout, install_failed, unable_to_reboot,
                commit_failed, rollback_failed, missing_url, invalid_operation).

Ltac do_run :=
  cbv [mbind mret Do_bind Do_ret progress success fail reject reboot does
       this now set_Step elapse start];
  cbn [fst snd mj host calls clock Shutdown_returns later_by].

(** *** The turns of the wait loop *)

Lemma wait_nothing_sent (t : Duration) (r : Run) :
  wait t [] r =
    (Some (job_error install_timeout),
     {| mj := mj r; host := later_by t (host r);
        calls := calls r ++ [Fail install_timeout] |}).
Proof. reflexivity. Qed.

Lemma wait_timer_first (t after : Duration) (sig : signal)
    (later : list (Duration * signal)) (r : Run) :
  (t ≤ after)%Z →
  wait t ((after, sig) :: later) r = wait t [] r.
Proof.
  intros Hle%Z.leb_le. cbn [wait]. by rewrite Hle.
Qed.

Lemma wait_progress_line (t after : Duration) (line : string)
    (later : list (Duration * signal)) (r : Run) :
  (after < t)%Z →
  wait t ((after, progress_line line) :: later) r =
    wait t later
      {| mj := mj r; host := later_by after (host r);
         calls := calls r ++ [relay (mj r) (clock (later_by after (host r))) line] |}.
Proof.
  intros Hlt%Z.leb_gt. cbn [wait]. by rewrite Hlt.
Qed.

Lemma wait_install_failed (t after : Duration) (msg : string)
    (later : list (Duration * signal)) (r : Run) :
  (after < t)%Z →
  wait t ((after, done_with (Some msg)) :: later) r =
    (Some (job_error (install_failed msg)),
     {| mj := mj r; host := later_by after (host r);
        calls := calls r ++ [Fail (install_failed msg)] |}).
Proof.
  intros Hlt%Z.leb_gt. cbn [wait]. by rewrite Hlt.
Qed.

Lemma wait_install_done (t after : Duration)
    (later : list (Duration * signal)) (r : Run) :
  (after < t)%Z →
  wait t ((after, done_with None) :: later) r =
    (None,
     {| mj := with_Step "rebooting" (mj r); host := later_by after (host r);
        calls := calls r ++ [InProgress (step_details "rebooting"); Shutdown;
                             rebooted (host r)] |}).
Proof.
  intros Hlt%Z.leb_gt. cbn [wait]. rewrite Hlt.
  destruct r as [job [clk [msg|]] cs]; do_run; by rewrite <- !app_assoc.
Qed.

(** The wait loop only adds calls, and none of them is on the tool. *)
Lemma wait_adds_no_updater_call (t : Duration) (signals : list (Duration * signal)) :
  ∀ r, ∃ new, calls (wait t signals r).2 = calls r ++ new ∧ updater_calls new = [].
Proof.
  induction signals as [|[after sig] later IH]; intros r.
  - exists [Fail install_timeout]. by rewrite wait_nothing_sent.
  - destruct (Z.le_gt_cases t after) as [Hle|Hlt].
    + exists [Fail install_timeout].
      by rewrite (wait_timer_first _ _ _ _ _ Hle), wait_nothing_sent.
    + destruct sig as [line|[msg|]].
      * rewrite (wait_progress_line _ _ _ _ _ Hlt).
        match goal with |- context [wait t later ?r'] =>
          destruct (IH r') as (new & -> & Hnew) end.
        cbn [calls]. eexists (_ :: new). rewrite <- app_assoc.
        split; [ done | ]. unfold updater_calls in *. by rewrite filter_cons.
      * rewrite (wait_install_failed _ _ _ _ _ Hlt). by eexists [_].
      * rewrite (wait_install_done _ _ _ _ Hlt). eexists [_; _; _].
        split; [ done | ]. unfold rebooted. by destruct (Shutdown_returns _).
Qed.

(** When the timer fires in a wait, after progress lines that each came
    in time, the loop has relayed the lines, fails the job once and
    returns; what the tool sends later is not received. *)
Lemma wait_until_timer (t : Duration) (lines later : list (Duration * signal)) :
  Forall (λ s, is_progress s = true ∧ (s.1 < t)%Z) lines →
  (∀ s, head later = Some s → (t ≤ s.1)%Z) →
  ∀ r, ∃ relays,
    (wait t (lines ++ later) r).1 = Some (job_error install_timeout) ∧
    calls (wait t (lines ++ later) r).2 = calls r ++ relays ++ [Fail install_timeout] ∧
    reports relays = [].
Proof.
  intros Hlines Hlater.
  induction Hlines as [|[after sig] lines [Hsig Hafter] _ IH]; intros r.
  - exists []. destruct later as [|[after sig] later].
    + by rewrite wait_nothing_sent.
    + cbn [app]. rewrite wait_timer_first, wait_nothing_sent; [ done | ].
      by apply (Hlater (after, sig)).
  - cbn in Hsig, Hafter. destruct sig as [line|]; [ | done ].
    cbn [app]. rewrite (wait_progress_line _ _ _ _ _ Hafter).
    match goal with |- context [wait t (lines ++ later) ?r'] =>
      destruct (IH r') as (relays & -> & -> & Hrelays) end.
    cbn [calls]. eexists (_ :: relays). rewrite <- app_assoc.
    split_and!; [ done | done | ].
    unfold reports in *. by rewrite filter_cons.
Qed.

(** *** The branches of [exec] *)

Lemma exec_fresh_install (cmd : Commander) (t : Duration) (job : Job) (h : Host) :
  Operation job = "mender_install" →
  Step (menderState job) ≠ "rebooting" →
  exec cmd t (start job h) =
    wait t (Install_sends cmd (URL job))
      {| mj := with_Step "installing" job; host := h;
         calls := [InProgress (step_details "installing"); Install (URL job)] |}.
Proof.
  intros Hop Hstep%String.eqb_neq. unfold exec. do_run.
  by rewrite Hop, Hstep.
Qed.

Lemma exec_after_reboot (cmd : Commander) (t : Duration) (job : Job) (h : Host) :
  Operation job = "mender_install" →
  Step (menderState job) = "rebooting" →
  exec cmd t (start job h) =
    match Commit_returns cmd with
    | Some _ =>
        (Some (job_error commit_failed),
         {| mj := job; host := h;
            calls := [relay job (clock h) "rebooted"; Commit; Fail commit_failed] |})
    | None =>
        (None,
         {| mj := with_Step "committed" job; host := h;
            calls := [relay job (clock h) "rebooted"; Commit;
                      Success (step_details "committed")] |})
    end.
Proof.
  intros Hop Hstep. unfold exec, reportProgress. do_run.
  rewrite Hop, Hstep. cbn [String.eqb Ascii.eqb Bool.eqb].
  by destruct (Commit_returns cmd).
Qed.

Lemma updater_calls_of_install (cmd : Commander) (t : Duration) (job : Job) (h : Host) :
  Operation job = "mender_install" →
  Step (menderState job) ≠ "rebooting" →
  updater_calls (calls (exec cmd t (start job h)).2) = [Install (URL job)].
Proof.
  intros Hop Hstep. rewrite (exec_fresh_install _ _ _ _ Hop Hstep).
  match goal with |- context [wait t ?sigs ?r'] =>
    destruct (wait_adds_no_updater_call t sigs r') as (new & -> & Hnew) end.
  cbn [calls]. unfold updater_calls in *. by rewrite filter_app, Hnew.
Qed.

(** C4: for an install job whose persisted step is ["rebooting"], [exec]
    calls [Commit] and never [Install]; when the step is empty, it calls
    [Install] with the job's url and never [Commit]. *)
Theorem install_job_commits_after_reboot_else_installs
    (cmd : Commander) (t : Duration) (job : Job) (h : Host) :
  Operation job = "mender_install" →
  let cs := calls (exec cmd t (start job h)).2 in
  (Step (menderState job) = "rebooting" →
     Commit ∈ cs ∧ ∀ url, Install url ∉ cs) ∧
  (Step (menderState job) = "" →
     Install (URL job) ∈ cs ∧ Commit ∉ cs).
Proof.
  intros Hop cs. split; intros Hstep.
  - subst cs. rewrite (exec_after_reboot _ _ _ _ Hop Hstep).
    destruct (Commit_returns cmd); cbn [snd calls].
    all: split; [ set_solver | ].
    all: intros url Hin; unfold relay in Hin;
      repeat (apply elem_of_cons in Hin as [Hin|Hin]; [ discriminate | ]);
      by apply elem_of_nil in Hin.
  - assert (Hfresh : Step (menderState job) ≠ "rebooting") by (by rewrite Hstep).
    pose proof (updater_calls_of_install cmd t job h Hop Hfresh) as Hup.
    fold cs in Hup. unfold updater_calls in Hup. split.
    + assert (Install (URL job) ∈ filter (λ c, on_updater c) cs) as Hin
        by (rewrite Hup; apply list_elem_of_here).
      by apply list_elem_of_filter in Hin as [_ Hin].
    + intros Hin.
      assert (Commit ∈ filter (λ c, on_updater c) cs) as Hin'
        by (by apply list_elem_of_filter).
      rewrite Hup in Hin'. apply elem_of_cons in Hin' as [Heq|Hin']; [ done | ].
      by apply elem_of_nil in Hin'.
Qed.

Lemma install_job_commits_after_reboot_else_installs_witness :
  (Commit ∈ calls (exec sample.CommandFail timeout
                     (start (sample.install_of "rebooting") sample.booted)).2) ∧
  (Install "https://x/fw.pkg"
     ∈ calls (exec sample.CommandFail timeout
                (start (sample.install_of "") sample.booted)).2).
Proof.
  split.
  - apply (install_job_commits_after_reboot_else_installs sample.CommandFail
             timeout (sample.install_of "rebooting") sample.booted eq_refl).
    reflexivity.
  - apply (install_job_commits_after_reboot_else_installs sample.CommandFail
             timeout (sample.install_of "") sample.booted eq_refl).
    reflexivity.
Defined.

(** C9: in the branch that resumes after the reboot, a [Commit] that
    succeeds is reported by [Success] with step ["committed"], a [Commit]
    that fails by [Fail] with the code [ERR_MENDER_COMMIT]; [Rollback] is
    not called. *)
Theorem resume_after_reboot_reports_the_commit
    (cmd : Commander) (t : Duration) (job : Job) (h : Host) :
  Operation job = "mender_install" →
  Step (menderState job) = "rebooting" →
  let cs := calls (exec cmd t (start job h)).2 in
  (Commit_returns cmd = None →
     reports cs = [Success (Some [("step", Str "committed")])]) ∧
  (∀ msg, Commit_returns cmd = Some msg →
     reports cs = [Fail {| ErrCode := "ERR_MENDER_COMMIT";
                           ErrMessage := "error committing" |}]) ∧
  Rollback ∉ cs.
Proof.
  intros Hop Hstep cs. subst cs. rewrite (exec_after_reboot _ _ _ _ Hop Hstep).
  split_and!.
  - by intros ->.
  - by intros msg ->.
  - destruct (Commit_returns cmd); cbn [snd calls]; unfold relay;
      intros Hin;
      repeat (apply elem_of_cons in Hin as [Hin|Hin]; [ discriminate | ]);
      by apply elem_of_nil in Hin.
Qed.

Lemma resume_after_reboot_reports_the_commit_witness :
  reports (calls (exec (sample.CommandOk []) timeout
                    (start (sample.install_of "rebooting") sample.booted)).2)
    = [Success (Some [("step", Str "committed")])] ∧
  reports (calls (exec sample.CommandFail timeout
                    (start (sample.install_of "rebooting") sample.booted)).2)
    = [Fail {| ErrCode := "ERR_MENDER_COMMIT"; ErrMessage := "error committing" |}].
Proof.
  split.
  - apply (resume_after_reboot_reports_the_commit (sample.CommandOk []) timeout
             (sample.install_of "rebooting") sample.booted eq_refl eq_refl).
    reflexivity.
  - pose proof (resume_after_reboot_reports_the_commit sample.CommandFail timeout
                  (sample.install_of "rebooting") sample.booted eq_refl eq_refl)
      as (_ & Hfails & _).
    exact (Hfails "commit error" eq_refl).
Defined.

(** C5, as the spec has it, fails: an install that sends a progress line
    after six minutes and ends six minutes later has not ended when the
    ten minutes of the timeout have passed, yet no [Fail] is called, and
    its late result is reported ([InProgress] with step ["rebooting"]). *)
Lemma slow_install_is_not_failed :
  let r := exec (sample.CommandOk sample.slow_install) timeout
             (start (sample.install_of "") sample.booted) in
  ends_after sample.slow_install = Some (12 * Minute)%Z ∧
  (timeout < 12 * Minute)%Z ∧
  r.1 = None ∧
  filter (λ c, goagent.is_Fail c) (calls r.2) = [] ∧
  reports (calls r.2) = [InProgress (Some [("step", Str "installing")]);
                         InProgress (Some [("step", Str "rebooting")])].
Proof. vm_compute. split_and!; done. Qed.

(** C5, amended: the timeout bounds each wait for the next signal of the
    tool, not the install as a whole.  When a wait lasts the timeout,
    after progress lines that each came within it, [Fail] is called once
    with the code [ERR_MENDER_INSTALL_TIMEOUT] and [exec] returns that
    error; it is the last call, whatever the tool sends later. *)
Theorem install_wait_timeout_fails_once
    (cmd : Commander) (t : Duration) (job : Job) (h : Host)
    (lines later : list (Duration * signal)) :
  Operation job = "mender_install" →
  Step (menderState job) ≠ "rebooting" →
  Install_sends cmd (URL job) = lines ++ later →
  Forall (λ s, is_progress s = true ∧ (s.1 < t)%Z) lines →
  (∀ s, head later = Some s → (t ≤ s.1)%Z) →
  let timed_out := {| ErrCode := "ERR_MENDER_INSTALL_TIMEOUT";
                      ErrMessage := "mender timed out" |} in
  let r := exec cmd t (start job h) in
  r.1 = Some (job_error timed_out) ∧
  reports (calls r.2) = [InProgress (Some [("step", Str "installing")]);
                         Fail timed_out] ∧
  last (calls r.2) = Some (Fail timed_out).
Proof.
  intros Hop Hstep Hsends Hlines Hlater timed_out r. subst r.
  rewrite (exec_fresh_install _ _ _ _ Hop Hstep), Hsends.
  match goal with |- context [wait t _ ?r'] =>
    destruct (wait_until_timer t lines later Hlines Hlater r')
      as (relays & -> & -> & Hrelays) end.
  cbn [calls]. split_and!.
  - done.
  - unfold reports in *. rewrite !filter_app, Hrelays.
    by rewrite !filter_cons.
  - by rewrite !app_assoc, last_snoc.
Qed.

Lemma install_wait_timeout_fails_once_witness :
  let r := exec (sample.CommandOk sample.stuck_install) timeout
             (start (sample.install_of "") sample.booted) in
  r.1 = Some (job_error install_timeout) ∧
  reports (calls r.2) = [InProgress (Some [("step", Str "installing")]);
                         Fail install_timeout] ∧
  last (calls r.2) = Some (Fail install_timeout).
Proof.
  apply (install_wait_timeout_fails_once (sample.CommandOk sample.stuck_install)
           timeout (sample.install_of "") sample.booted
           [(Second, progress_line "5%")]
           [((11 * Minute)%Z, done_with None)]).
  - reflexivity.
  - discriminate.
  - reflexivity.
  - repeat constructor.
  - intros s [= <-]. vm_compute. discriminate.
Defined.

(** *** [Process] *)

Lemma Process_missing_url (jobExecution : JobExecutioner)
    (cmd : Commander) (h : Host) :
  (parseJobDocument jobExecution).2 = Some missing_url →
  Process jobExecution cmd h = start (parseJobDocument jobExecution).1 h.
Proof.
  unfold Process. destruct (parseJobDocument jobExecution) as [job err].
  cbn [fst snd]. by intros ->.
Qed.

Lemma Process_invalid_operation (jobExecution : JobExecutioner)
    (cmd : Commander) (h : Host) :
  (parseJobDocument jobExecution).2 = Some invalid_operation →
  calls (Process jobExecution cmd h) = [Reject invalid_operation].
Proof.
  unfold Process. destruct (parseJobDocument jobExecution) as [job err].
  cbn [fst snd]. by intros ->.
Qed.

(** C1 does not hold of the code.  For the install job without [url]
    of [TestParseJobMessageInstallMissingUrl], decoding gives the error
    [ERR_MENDER_MISSING_URL], and [Process] makes no call at all: no
    [Reject], and none on the update tool. *)
Theorem Process_install_without_url_makes_no_call (cmd : Commander) (h : Host) :
  (parseJobDocument sample.install_without_url).2
    = Some {| ErrCode := "ERR_MENDER_MISSING_URL";
              ErrMessage := "missing url parameter" |} ∧
  calls (Process sample.install_without_url cmd h) = [].
Proof.
  split; [ reflexivity | ].
  by rewrite Process_missing_url.
Qed.

End orchestrator.

(** ** The tests of the package, replayed on the model *)

Module tests.
Import json mendercmd mender.
Import awsiotjobs (job_error).
Import goagent (reports, install_failed, commit_failed, install_timeout,
                invalid_operation, missing_url).

Example TestParseJobMessageInstall :
  let amock := sample.JobExecutionMock
                 (Some [("operation", Str "mender_install"); ("url", Str "http://test")])
                 (Some []) in
  (parseJobDocument amock).1 =
    {| Operation := "mender_install"; URL := "http://test";
       menderState := {| Step := "" |}; execution := amock |}.
Proof. reflexivity. Qed.

Example TestParseJobMessageInstallMissingUrl :
  (parseJobDocument sample.install_without_url).2 = Some missing_url.
Proof. reflexivity. Qed.

Example TestProcessMissingUrlFail (cmd : Commander) (h : Host) :
  calls (Process sample.misspelt_install cmd h) = [Reject invalid_operation].
Proof. reflexivity. Qed.

Example TestExecInstallFail :
  let job := (parseJobDocument sample.install_without_url).1 in
  let r := exec sample.CommandFail sample.testTimeout (start job sample.booted) in
  r.1 = Some (job_error (install_failed "install error")) ∧
  reports (calls r.2) = [InProgress (step_details "installing");
                         Fail (install_failed "install error")].
Proof. vm_compute. done. Qed.

Example TestExecCommitFail :
  let amock := sample.JobExecutionMock
                 (Some [("operation", Str "mender_install"); ("url", Str "http://test")])
                 (Some [("step", Str "rebooting")]) in
  let job := (parseJobDocument amock).1 in
  let r := exec sample.CommandFail sample.testTimeout (start job sample.booted) in
  r.1 = Some (job_error commit_failed) ∧
  reports (calls r.2) = [Fail commit_failed].
Proof. vm_compute. done. Qed.

Example TestExecTimeoutFail :
  let amock := sample.JobExecutionMock
                 (Some [("operation", Str "mender_install"); ("url", Str "http://test")])
                 (Some []) in
  let job := (parseJobDocument amock).1 in
  let r := exec sample.CommandTimeout sample.testTimeout (start job sample.booted) in
  r.1 = Some (job_error install_timeout) ∧
  reports (calls r.2) = [InProgress (step_details "installing");
                         Fail install_timeout].
Proof. vm_compute. done. Qed.

(** A fresh install that ends well: the job reports the reboot, runs
    [shutdown] and calls [Terminate]. *)
Example install_then_reboot :
  calls (exec (sample.CommandOk [(awsiotjobs.Second, done_with None)]) timeout
           (start (sample.install_of "") sample.booted)).2 =
    [InProgress (step_details "installing"); Install "https://x/fw.pkg";
     InProgress (step_details "rebooting"); Shutdown; Terminate].
Proof. reflexivity. Qed.

(** The same run on the execution record: two status updates go out on
    the job's update topic, and [Terminate] leaves the echo topic
    subscribed. *)
Example install_then_reboot_on_the_record :
  let c := sample.listening sample.install_job in
  let cs := calls (exec (sample.CommandOk [(awsiotjobs.Second, done_with None)]) timeout
                     (start (sample.install_of "") sample.booted)).2 in
  let s := (goagent.replay cs {| awsiotjobs.client := c;
                                 awsiotjobs.job := sample.install_job |}).2 in
  awsiotjobs.pub_topic <$> goagent.sent s =
    ["$aws/things/rpi/jobs/j1/update"; "$aws/things/rpi/jobs/j1/update"] ∧
  awsiotjobs.status (awsiotjobs.job s) = "IN_PROGRESS" ∧
  awsiotjobs.statusDetails (awsiotjobs.job s) = step_details "rebooting" ∧
  goagent.subscribed "$aws/things/rpi/jobs/notify-next" (awsiotjobs.client s) = None ∧
  goagent.subscribed "$aws/things/rpi/jobs/+/update/accepted" (awsiotjobs.client s)
    = Some (awsiotjobs.je_updateHandler "j1").
Proof. vm_compute. done. Qed.

End tests.

(** ** More on the status reporter *)

Module reporter_effects.
Import json awsiotjobs goagent.
Import reporter.

Lemma subscribed_with_Iot (topic : string) (iot : IMqttClient) (c : Client) :
  subscribed topic (with_Iot iot c) = subscriptions iot !! topic.
Proof. reflexivity. Qed.

Lemma subscribed_connected (topic : string) (iot : IMqttClient) (c : Client) :
  Iot c = Some iot → subscribed topic c = subscriptions iot !! topic.
Proof. unfold subscribed. by intros ->. Qed.

(** X1: a terminal report ([Success], [Fail], [Reject]) releases the
    echo topic exactly when the wait on its publish gave no error, and
    then returns nil.  When the publish gave an error the echo topic stays
    subscribed; [Success] returns that error, [Fail] and [Reject] return
    the [JobError] they were called with. *)
Theorem terminal_report_releases_echo_unless_publish_failed
    (r : report) (s : Store) (iot : IMqttClient) :
  Iot (client s) = Some iot →
  terminal r = true →
  let echo := updateTopic (client s) in
  (answer iot = None →
     (send r s).1 = Returns None ∧
     subscribed echo (client (send r s).2) = None) ∧
  (∀ e, answer iot = Some e →
     (send r s).1 = Returns (Some (match r with
                                   | Fail err | Reject err => job_error err
                                   | _ => e
                                   end)) ∧
     subscribed echo (client (send r s).2) = subscribed echo (client s)).
Proof.
  intros Hiot Hterminal echo. rewrite (send_connected r s iot Hiot).
  rewrite Hterminal. cbn [fst snd client andb]. split.
  - intros ->. rewrite bool_decide_eq_true_2 by done.
    rewrite subscribed_with_Iot. cbn [release subscriptions].
    split; [ by destruct r | apply lookup_delete_eq ].
  - intros e ->. rewrite bool_decide_eq_false_2 by done.
    rewrite subscribed_with_Iot, (subscribed_connected _ iot _ Hiot).
    split; [ by destruct r | done ].
Qed.

Lemma terminal_report_releases_echo_unless_publish_failed_witness :
  let listening := sample.listening sample.install_job in
  let s := {| client := listening; job := sample.install_job |} in
  (send (Success sample.committed) s).1 = Returns None ∧
  subscribed (updateTopic listening)
    (client (send (Success sample.committed) s).2) = None.
Proof.
  pose proof (terminal_report_releases_echo_unless_publish_failed
                (Success sample.committed)
                {| client := sample.listening sample.install_job;
                   job := sample.install_job |}
                (default {| published := []; subscriptions := ∅; tokens := [] |}
                   (Iot (sample.listening sample.install_job)))
                eq_refl eq_refl) as [Hclean _].
  apply Hclean. reflexivity.
Defined.

(** X2: [InProgress] changes no subscription, connected or not: the echo
    topic stays open after a report that is not terminal. *)
Theorem InProgress_keeps_every_subscription
    (details : StatusDetails) (s : Store) (topic : string) :
  subscribed topic (client (awsiotjobs.InProgress details s).2)
    = subscribed topic (client s).
Proof.
  change (awsiotjobs.InProgress details s) with (send (InProgress details) s).
  destruct (Iot (client s)) as [iot|] eqn:Hiot.
  - rewrite (send_connected _ s iot Hiot). cbn [snd client terminal andb].
    by rewrite subscribed_with_Iot, (subscribed_connected _ iot _ Hiot).
  - destruct s as [[? cfg] je]; cbn in Hiot; subst. reflexivity.
Qed.

(** X3: on a client whose [Iot] is nil every report panics with ["Iot
    client not set"]; by then the record carries the new status and
    details, and nothing else has changed. *)
Theorem report_without_Iot_panics (r : report) (s : Store) :
  Iot (client s) = None →
  send r s = (Panics "Iot client not set",
              {| client := client s; job := reported r (job s) |}).
Proof.
  destruct s as [[? cfg] je]; cbn; intros ->. by destruct r.
Qed.

Lemma report_without_Iot_panics_witness :
  let s := {| client := {| Iot := None; config := sample.thing_config |};
              job := sample.install_job |} in
  (send (Fail sample.reboot_failed) s).1 = Panics "Iot client not set" ∧
  status (job (send (Fail sample.reboot_failed) s).2) = "FAILED".
Proof.
  intros s.
  rewrite (report_without_Iot_panics (Fail sample.reboot_failed) s eq_refl).
  split; reflexivity.
Defined.

Lemma struct_field_absent (tag : string) (doc : value) :
  Forall (λ kv, names tag kv.1 = false) (members_of doc) →
  struct_field tag doc = Null.
Proof.
  unfold struct_field. generalize Null.
  induction (members_of doc) as [|kv members IH]; intros acc Habsent; [ done | ].
  apply Forall_cons in Habsent as [Hkv Habsent].
  cbn [fold_left]. rewrite Hkv. by apply IH.
Qed.

(** X4: an echo that is not JSON, is not an object, or has no
    [executionState] member sets the tracked version to 0 and the status
    details to nil; the status and the client are left as they were. *)
Theorem echo_without_executionState_resets_the_version (msg : Message) (s : Store) :
  (∀ members, Document msg = Some (Obj members) →
              Forall (λ kv, names "executionState" kv.1 = false) members) →
  let s' := (updateHandler msg s).2 in
  versionNumber (job s') = 0%Z ∧
  statusDetails (job s') = None ∧
  status (job s') = status (job s) ∧
  client s' = client s.
Proof.
  intros Habsent s'. subst s'. rewrite updateHandler_run.
  unfold Unmarshal_updatePayload. rewrite struct_field_absent; [ done | ].
  destruct (Document msg) as [[| | | | |members]|]; cbn; try done.
  by apply Habsent.
Qed.

Lemma echo_without_executionState_resets_the_version_witness :
  let s := {| client := sample.connected []; job := sample.install_job |} in
  versionNumber (job s) = 1%Z ∧
  versionNumber (job (updateHandler sample.garbled_echo s).2) = 0%Z.
Proof.
  split; [ reflexivity | ].
  apply (echo_without_executionState_resets_the_version sample.garbled_echo
           {| client := sample.connected []; job := sample.install_job |}).
  intros members Hdoc. discriminate Hdoc.
Defined.

(** X5: a report never changes the tracked version: two reports with no
    echo between them are published with the same [expectedVersion], the
    one the record had before the first. *)
Theorem reports_without_echo_repeat_the_expectedVersion
    (first next : report) (s : Store) :
  is_Some (Iot (client s)) →
  let s1 := (send first s).2 in
  let s2 := (send next s1).2 in
  last (sent s1) ≫= expectedVersion = Some (Num (versionNumber (job s))) ∧
  last (sent s2) ≫= expectedVersion = Some (Num (versionNumber (job s))).
Proof.
  intros Hiot s1 s2. split.
  - by apply last_sent_after_report.
  - subst s2. rewrite last_sent_after_report by (by apply connected_after_report).
    subst s1. by rewrite send_sets_record, versionNumber_reported.
Qed.

Lemma reports_without_echo_repeat_the_expectedVersion_witness :
  let s := {| client := sample.connected []; job := sample.install_job |} in
  let s1 := (send (InProgress sample.committed) s).2 in
  let s2 := (send (Success sample.committed) s1).2 in
  last (sent s1) ≫= expectedVersion = Some (Num 1) ∧
  last (sent s2) ≫= expectedVersion = Some (Num 1).
Proof.
  apply (reports_without_echo_repeat_the_expectedVersion
           (InProgress sample.committed) (Success sample.committed)
           {| client := sample.connected []; job := sample.install_job |}).
  vm_compute. eauto.
Defined.

Lemma subscribe_connected (c : Client) (iot : IMqttClient) :
  Iot c = Some iot →
  let thing := ThingName (config c) in
  subscribe c =
    (Returns (),
     with_Iot
       {| published := published iot;
          subscriptions :=
            <[jobBaseTopic thing "start-next/rejected" := the_defaultHandler]>
            (<[jobBaseTopic thing "start-next/accepted" := client_jobHandler]>
            (<[jobBaseTopic thing "+/get/rejected" := the_defaultHandler]>
            (<[jobBaseTopic thing "+/get/accepted" := client_jobHandler]>
            (<[jobBaseTopic thing "notify-next" := client_jobHandler]>
               (subscriptions iot)))));
          tokens := tokens iot |} c).
Proof.
  destruct c as [? cfg]; cbn; intros ->. done.
Qed.

(** X6: [unsubscribe] undoes [subscribe].  On a connected client, after
    [subscribe] and then [unsubscribe] none of the five job topics is
    subscribed, every other topic has the handler it had, and nothing was
    published. *)
Theorem unsubscribe_undoes_subscribe (c : Client) (iot : IMqttClient) :
  Iot c = Some iot →
  let thing := ThingName (config c) in
  let c' := ((subscribe;; unsubscribe) c).2 in
  ((subscribe;; unsubscribe) c).1 = Returns () ∧
  (∀ rest, rest ∈ job_topics → subscribed (jobBaseTopic thing rest) c' = None) ∧
  (∀ topic, (∀ rest, rest ∈ job_topics → topic ≠ jobBaseTopic thing rest) →
            subscribed topic c' = subscribed topic c) ∧
  (published <$> Iot c') = Some (published iot).
Proof.
  intros Hiot thing c'.
  pose proof (subscribe_connected c iot Hiot) as Hsub. cbv zeta in Hsub. fold thing in Hsub.
  assert (Hrun : (subscribe;; unsubscribe) c = unsubscribe (subscribe c).2)
    by (unfold mbind, Go_bind; by rewrite Hsub).
  subst c'. rewrite Hrun, Hsub. cbn [snd].
  rewrite (unsubscribe_connected (with_Iot _ c) _ eq_refl).
  cbn [fst snd with_Iot config Iot]. fold thing.
  split_and!; [ done | | | done ].
  - intros rest Hin. rewrite subscribed_with_Iot. cbn [release subscriptions].
    unfold job_topics in Hin.
    repeat (apply elem_of_cons in Hin as [-> | Hin]);
      [ .. | by apply elem_of_nil in Hin ];
      repeat (apply lookup_delete_None; first [ left; reflexivity | right ]).
  - intros topic Hother.
    rewrite (subscribed_connected _ iot c Hiot), subscribed_with_Iot.
    cbn [release subscriptions].
    assert (∀ rest, rest ∈ job_topics → jobBaseTopic thing rest ≠ topic) as Hne
      by (intros rest Hin Heq; by apply (Hother rest Hin)).
    rewrite !lookup_delete_ne, !lookup_insert_ne; [ done | .. ];
      apply Hne; unfold job_topics; set_solver.
Qed.

Lemma unsubscribe_undoes_subscribe_witness :
  let c := sample.connected [] in
  subscribed "$aws/things/rpi/jobs/notify-next" (subscribe c).2
    = Some client_jobHandler ∧
  subscribed "$aws/things/rpi/jobs/notify-next" ((subscribe;; unsubscribe) c).2
    = None.
Proof.
  split; [ reflexivity | ].
  pose proof (unsubscribe_undoes_subscribe (sample.connected [])
                {| published := []; subscriptions := ∅; tokens := [] |} eq_refl)
    as (_ & Hreleased & _).
  apply (Hreleased "notify-next"). apply list_elem_of_here.
Defined.

End reporter_effects.

(** ** More on the dispatcher *)

Module dispatcher_jobs.
Import json awsiotjobs goagent.
Import reporter reporter_effects.

Lemma jobHandler_connected (msg : Message) (c : Client) (iot : IMqttClient)
    (execution : value) :
  Iot c = Some iot →
  index "execution" (Unmarshal_map (Document msg)) = Some execution →
  let je := with_thingName (ThingName (config c))
              (Unmarshal_JobExecution (Marshal_interface execution)) in
  jobHandler msg c =
    (Returns (Some je),
     with_Iot {| published := published iot;
                 subscriptions := <[updateTopic c := je_updateHandler (jobId je)]>
                                    (subscriptions iot);
                 tokens := tokens iot |} c).
Proof.
  intros Hiot Hexecution je. unfold jobHandler, parseJobMessage.
  rewrite Hexecution. destruct c as [? cfg]; cbn in Hiot; subst. reflexivity.
Qed.



(** X8: an [execution] that is not an object ([null], a number, a
    string, an array) counts as a job all the same: the handler is started
    on an empty record, and [Process] rejects it for its missing
    operation, with no call on the update tool. *)
Theorem execution_that_is_no_object_is_rejected
    (msg : Message) (c : Client) (iot : IMqttClient) (execution : value)
    (cmd : mendercmd.Commander) (h : mender.Host) :
  Iot c = Some iot →
  index "execution" (Unmarshal_map (Document msg)) = Some execution →
  (∀ members, execution ≠ Obj members) →
  (deliver msg cmd h c).1 = Returns [mender.Reject invalid_operation].
Proof.
  intros Hiot Hexecution Hno. unfold deliver, mbind, Go_bind.
  rewrite (jobHandler_connected msg c iot execution Hiot Hexecution).
  destruct execution; try reflexivity.
  by destruct (Hno members).
Qed.

Lemma execution_that_is_no_object_is_rejected_witness :
  (deliver sample.null_execution sample.CommandFail sample.booted
     (sample.connected [])).1
    = Returns [mender.Reject invalid_operation].
Proof.
  apply (execution_that_is_no_object_is_rejected sample.null_execution
           (sample.connected [])
           {| published := []; subscriptions := ∅; tokens := [] |} Null
           sample.CommandFail sample.booted eq_refl eq_refl).
  intros members. discriminate.
Defined.

End dispatcher_jobs.

(** ** More on the update orchestrator *)

Module orchestrator_runs.
Import json mendercmd mender.
Import awsiotjobs (Duration, Second, Minute, JobError, ErrCode, ErrMessage,
                   job_error, errorString).
Import goagent (is_report, on_updater, is_terminal, is_Publish, reports,
                updater_calls, terminal_reports, relays_line, relay,
                rebooted, line_in_time, install_timeout, install_failed,
                unable_to_reboot, commit_failed, rollback_failed, missing_url,
                invalid_operation).
Import orchestrator.

(** *** Progress lines *)

Lemma filter_Publish (P : call → Prop) `{∀ c, Decision (P c)} (cs : list call) :
  Forall (λ c, is_Publish c = true) cs →
  (∀ c, is_Publish c = true → ¬ P c) →
  filter P cs = [].
Proof.
  intros Hcs HP. induction Hcs as [|c cs Hc _ IH]; [ done | ].
  rewrite filter_cons. destruct (decide (P c)) as [HPc|_]; [ | done ].
  by destruct (HP c Hc).
Qed.

Lemma not_elem_of_Publish (c : call) (cs : list call) :
  Forall (λ c, is_Publish c = true) cs → is_Publish c = false → c ∉ cs.
Proof.
  intros Hcs Hc Hin. rewrite Forall_forall in Hcs.
  specialize (Hcs c Hin). congruence.
Qed.

(** The loop relays the progress lines that come in time, in their
    order, and goes on with what follows them. *)
Lemma wait_relays_lines (t : Duration) (lines rest : list (Duration * signal)) :
  Forall (line_in_time t) lines →
  ∀ r, ∃ relays hr,
    wait t (lines ++ rest) r =
      wait t rest {| mj := mj r; host := hr; calls := calls r ++ relays |} ∧
    Shutdown_returns hr = Shutdown_returns (host r) ∧
    Forall (λ c, is_Publish c = true) relays ∧
    Forall2 (relays_line (mj r)) relays (texts lines).
Proof.
  intros Hlines. induction Hlines as [|[after sig] lines [Hsig Hafter] _ IH]; intros r.
  - exists [], (host r). rewrite app_nil_r. split_and!; try done. by destruct r.
  - cbn in Hsig, Hafter. destruct sig as [line|]; [ | done ].
    cbn [app]. rewrite (wait_progress_line _ _ _ _ _ Hafter).
    match goal with |- context [wait t (lines ++ rest) ?r'] =>
      destruct (IH r') as (relays & hr & -> & Hhr & Hrelays & Hlines') end.
    cbn [mj host calls] in *. eexists (_ :: relays), hr.
    rewrite <- app_assoc. split_and!; [ done | done | by constructor | ].
    change (texts ((after, progress_line line) :: lines)) with (line :: texts lines).
    constructor; [ by eexists | done ].
Qed.

Lemma exec_install_relays_lines (cmd : Commander) (t : Duration) (job : Job)
    (h : Host) (lines rest : list (Duration * signal)) :
  Operation job = "mender_install" →
  Step (menderState job) ≠ "rebooting" →
  Install_sends cmd (URL job) = lines ++ rest →
  Forall (line_in_time t) lines →
  ∃ relays hr,
    exec cmd t (start job h) =
      wait t rest
        {| mj := with_Step "installing" job; host := hr;
           calls := InProgress (step_details "installing") :: Install (URL job)
                    :: relays |} ∧
    Shutdown_returns hr = Shutdown_returns h ∧
    Forall (λ c, is_Publish c = true) relays ∧
    Forall2 (relays_line job) relays (texts lines).
Proof.
  intros Hop Hstep Hsends Hlines.
  rewrite (exec_fresh_install _ _ _ _ Hop Hstep), Hsends.
  match goal with |- context [wait t (lines ++ rest) ?r'] =>
    destruct (wait_relays_lines t lines rest Hlines r')
      as (relays & hr & -> & Hhr & Hrelays & Hlines') end.
  by exists relays, hr.
Qed.

Ltac not_among Hrelays :=
  let Hin := fresh "Hin" in
  intros Hin;
  repeat (apply elem_of_cons in Hin as [Hin|Hin]; [ discriminate | ]);
  try (apply elem_of_app in Hin as [Hin|Hin];
       [ by apply (not_elem_of_Publish _ _ Hrelays) in Hin | ]);
  repeat (apply elem_of_cons in Hin as [Hin|Hin]; [ discriminate | ]);
  by apply elem_of_nil in Hin.

(** X9: when [Install] ends with an error, after progress lines that
    each came in time, [exec] calls [Fail] once with the code
    [ERR_MENDER_INSTALL_FAILED] and the tool's message, returns that
    error, and neither runs [shutdown] nor calls [Terminate]. *)
Theorem install_error_is_failed_without_reboot
    (cmd : Commander) (t : Duration) (job : Job) (h : Host)
    (lines later : list (Duration * signal)) (after : Duration) (msg : string) :
  Operation job = "mender_install" →
  Step (menderState job) ≠ "rebooting" →
  Install_sends cmd (URL job) = lines ++ (after, done_with (Some msg)) :: later →
  Forall (line_in_time t) lines →
  (after < t)%Z →
  let failed := {| ErrCode := "ERR_MENDER_INSTALL_FAILED"; ErrMessage := msg |} in
  let r := exec cmd t (start job h) in
  r.1 = Some (job_error failed) ∧
  reports (calls r.2) = [InProgress (Some [("step", Str "installing")]); Fail failed] ∧
  (Shutdown ∉ calls r.2) ∧
  (Terminate ∉ calls r.2).
Proof.
  intros Hop Hstep Hsends Hlines Hafter failed r. subst r.
  destruct (exec_install_relays_lines cmd t job h lines _ Hop Hstep Hsends Hlines)
    as (relays & hr & -> & _ & Hrelays & _).
  rewrite (wait_install_failed _ _ _ _ _ Hafter). cbn [fst snd calls].
  split_and!.
  - done.
  - unfold reports. rewrite <- !app_comm_cons, !filter_cons, filter_app.
    rewrite (filter_Publish (λ c, is_report c) relays Hrelays)
      by (intros c Hc Hr; destruct c; cbn in *; done).
    done.
  - not_among Hrelays.
  - not_among Hrelays.
Qed.

Lemma install_error_is_failed_without_reboot_witness :
  let r := exec sample.CommandFail timeout
             (start (sample.install_of "installing") sample.booted) in
  r.1 = Some (job_error (install_failed "install error")) ∧
  reports (calls r.2) = [InProgress (Some [("step", Str "installing")]);
                         Fail (install_failed "install error")] ∧
  (Shutdown ∉ calls r.2) ∧
  (Terminate ∉ calls r.2).
Proof.
  apply (install_error_is_failed_without_reboot sample.CommandFail timeout
           (sample.install_of "installing") sample.booted [] [] 0%Z "install error").
  - reflexivity.
  - discriminate.
  - reflexivity.
  - constructor.
  - reflexivity.
Defined.

(** The run of an install that ends well. *)
Lemma exec_install_done
    (cmd : Commander) (t : Duration) (job : Job) (h : Host)
    (lines later : list (Duration * signal)) (after : Duration) :
  Operation job = "mender_install" →
  Step (menderState job) ≠ "rebooting" →
  Install_sends cmd (URL job) = lines ++ (after, done_with None) :: later →
  Forall (line_in_time t) lines →
  (after < t)%Z →
  let r := exec cmd t (start job h) in
  r.1 = None ∧
  Step (menderState (mj r.2)) = "rebooting" ∧
  ∃ relays,
    Forall (λ c, is_Publish c = true) relays ∧
    calls r.2 =
      InProgress (Some [("step", Str "installing")]) :: Install (URL job) :: relays ++
      [InProgress (Some [("step", Str "rebooting")]); Shutdown;
       match Shutdown_returns h with
       | Some msg => Fail {| ErrCode := "ERROR_UNABLE_TO_REBOOT"; ErrMessage := msg |}
       | None => Terminate
       end].
Proof.
  intros Hop Hstep Hsends Hlines Hafter r. subst r.
  destruct (exec_install_relays_lines cmd t job h lines _ Hop Hstep Hsends Hlines)
    as (relays & hr & -> & Hhr & Hrelays & _).
  rewrite (wait_install_done _ _ _ _ Hafter). cbn [fst snd calls mj host].
  split_and!; [ done | done | ].
  exists relays. split; [ done | ].
  unfold rebooted. by rewrite Hhr.
Qed.

(** X10: when [Install] ends well, after progress lines that each came
    in time, [exec] reports [InProgress] with step ["rebooting"], runs
    [shutdown] once and returns nil.  The last call is [Terminate] when
    [shutdown] started the reboot, and [Fail] with the code
    [ERROR_UNABLE_TO_REBOOT] when it failed; the job's step is
    ["rebooting"] either way. *)
Theorem install_success_reports_then_reboots
    (cmd : Commander) (t : Duration) (job : Job) (h : Host)
    (lines later : list (Duration * signal)) (after : Duration) :
  Operation job = "mender_install" →
  Step (menderState job) ≠ "rebooting" →
  Install_sends cmd (URL job) = lines ++ (after, done_with None) :: later →
  Forall (line_in_time t) lines →
  (after < t)%Z →
  let r := exec cmd t (start job h) in
  r.1 = None ∧
  Step (menderState (mj r.2)) = "rebooting" ∧
  ∃ relays,
    Forall (λ c, is_Publish c = true) relays ∧
    calls r.2 =
      InProgress (Some [("step", Str "installing")]) :: Install (URL job) :: relays ++
      [InProgress (Some [("step", Str "rebooting")]); Shutdown;
       match Shutdown_returns h with
       | Some msg => Fail {| ErrCode := "ERROR_UNABLE_TO_REBOOT"; ErrMessage := msg |}
       | None => Terminate
       end].
Proof.
  intros Hop Hstep Hsends Hlines Hafter.
  exact (exec_install_done cmd t job h lines later after Hop Hstep Hsends Hlines Hafter).
Qed.

Lemma install_success_reports_then_reboots_witness :
  let r := exec (sample.CommandOk [(Second, done_with None)]) timeout
             (start (sample.install_of "") sample.reboot_refused) in
  r.1 = None ∧
  last (calls r.2) = Some (Fail (unable_to_reboot "exit status 1")).
Proof.
  destruct (install_success_reports_then_reboots
              (sample.CommandOk [(Second, done_with None)]) timeout
              (sample.install_of "") sample.reboot_refused [] [] Second)
    as (Hnil & _ & relays & _ & Hcalls).
  - reflexivity.
  - discriminate.
  - reflexivity.
  - constructor.
  - reflexivity.
  - split; [ exact Hnil | ].
    cbv zeta in Hcalls. rewrite Hcalls.
    match goal with |- last (?a :: ?b :: relays ++ [?x; ?y; ?z]) = _ =>
      change (a :: b :: relays ++ [x; y; z])
        with ((a :: b :: relays) ++ ([x; y] ++ [z])) end.
    by rewrite app_assoc, last_snoc.
Defined.

Lemma wait_publishes_nothing_more (t : Duration) (rest : list (Duration * signal))
    (r : Run) :
  (∀ s, head rest = Some s → ¬ line_in_time t s) →
  ∃ new, calls (wait t rest r).2 = calls r ++ new ∧
         Forall (λ c, is_Publish c = false) new.
Proof.
  intros Hrest. destruct rest as [|[after sig] later].
  - rewrite wait_nothing_sent. eexists [_]. by repeat constructor.
  - destruct (Z.le_gt_cases t after) as [Hle|Hlt].
    + rewrite (wait_timer_first _ _ _ _ _ Hle), wait_nothing_sent.
      eexists [_]. by repeat constructor.
    + destruct sig as [line|[msg|]].
      * by destruct (Hrest (after, progress_line line) eq_refl).
      * rewrite (wait_install_failed _ _ _ _ _ Hlt).
        eexists [_]. by repeat constructor.
      * rewrite (wait_install_done _ _ _ _ Hlt).
        eexists [_; _; _]. split; [ done | ].
        unfold rebooted. destruct (Shutdown_returns (host r)); by repeat constructor.
Qed.

Lemma Publish_among (relays new : list call) :
  Forall (λ c, is_Publish c = true) relays →
  Forall (λ c, is_Publish c = false) new →
  filter (λ c, is_Publish c) (relays ++ new) = relays.
Proof.
  intros Hrelays Hnew. rewrite filter_app.
  assert (filter (λ c, is_Publish c) new = []) as ->.
  { induction Hnew as [|c new Hc _ IH]; [ done | ].
    rewrite filter_cons, IH, Hc. done. }
  rewrite app_nil_r.
  induction Hrelays as [|c relays Hc _ IH]; [ done | ].
  rewrite filter_cons, IH, Hc. done.
Qed.

(** What an install publishes. *)
Lemma exec_install_publishes
    (cmd : Commander) (t : Duration) (job : Job) (h : Host)
    (lines rest : list (Duration * signal)) :
  Operation job = "mender_install" →
  Step (menderState job) ≠ "rebooting" →
  Install_sends cmd (URL job) = lines ++ rest →
  Forall (line_in_time t) lines →
  (∀ s, head rest = Some s → ¬ line_in_time t s) →
  Forall2 (relays_line job)
    (filter (λ c, is_Publish c) (calls (exec cmd t (start job h)).2))
    (texts lines).
Proof.
  intros Hop Hstep Hsends Hlines Hrest.
  destruct (exec_install_relays_lines cmd t job h lines rest Hop Hstep Hsends Hlines)
    as (relays & hr & -> & _ & Hrelays & Hlines').
  match goal with |- context [wait t rest ?r'] =>
    destruct (wait_publishes_nothing_more t rest r' Hrest) as (new & -> & Hnew) end.
  cbn [calls]. rewrite <- !app_comm_cons, !filter_cons. cbn [is_Publish].
  by rewrite (Publish_among relays new Hrelays Hnew).
Qed.

(** X11: during an install, the progress lines that came in time, up
    to the first signal that is a result or comes too late, are each
    published once, in their order, and nothing else is published.  Each
    goes out at QoS 0 on the topic [mender/<thing>/job/<jobId>/progress],
    in a document with the line under ["progress"], its bytes that are
    not UTF-8 replaced by U+FFFD, and a time under ["ts"]. *)
Theorem progress_lines_are_relayed_in_order
    (cmd : Commander) (t : Duration) (job : Job) (h : Host)
    (lines rest : list (Duration * signal)) :
  Operation job = "mender_install" →
  Step (menderState job) ≠ "rebooting" →
  Install_sends cmd (URL job) = lines ++ rest →
  Forall (line_in_time t) lines →
  (∀ s, head rest = Some s → ¬ line_in_time t s) →
  let topic := "mender/" +:+ GetThingName (execution job) +:+ "/job/"
               +:+ GetJobID (execution job) +:+ "/progress" in
  Forall2
    (λ c line, ∃ ts, c = Publish topic 0
                           (Obj [("progress", Str (Marshal_string line));
                                 ("ts", Num ts)]))
    (filter (λ c, is_Publish c) (calls (exec cmd t (start job h)).2))
    (texts lines).
Proof.
  intros Hop Hstep Hsends Hlines Hrest topic.
  eapply Forall2_impl;
    [ exact (exec_install_publishes cmd t job h lines rest
               Hop Hstep Hsends Hlines Hrest) | ].
  intros c line [ts ->]. by eexists.
Qed.

Lemma progress_lines_are_relayed_in_order_witness :
  ∃ ts,
    filter (λ c, is_Publish c)
      (calls (exec (sample.CommandOk sample.stuck_install) timeout
                (start (sample.install_of "") sample.booted)).2)
    = [Publish "mender/rpi/job/j1/progress" 0
         (Obj [("progress", Str "5%"); ("ts", Num ts)])].
Proof.
  pose proof (progress_lines_are_relayed_in_order
                (sample.CommandOk sample.stuck_install) timeout
                (sample.install_of "") sample.booted
                [(Second, progress_line "5%")]
                [((11 * Minute)%Z, done_with None)]
                eq_refl) as Hrelayed.
  cbv zeta in Hrelayed.
  apply Forall2_cons_inv_r in Hrelayed as (c & cs & [ts ->] & Hnil & ->).
  - apply Forall2_nil_inv_r in Hnil as ->. by exists ts.
  - discriminate.
  - reflexivity.
  - repeat constructor.
  - intros s [= <-] [Hline _]. discriminate Hline.
Defined.

(** *** The other branches of [exec] *)

Lemma exec_rollback (cmd : Commander) (t : Duration) (job : Job) (h : Host) :
  Operation job = "mender_rollback" →
  exec cmd t (start job h) =
    match Rollback_returns cmd with
    | Some msg =>
        (Some (errorString msg),
         {| mj := job; host := h; calls := [Rollback; Fail rollback_failed] |})
    | None =>
        (None,
         {| mj := with_Step "rolled_back" job; host := h;
            calls := [Rollback; Success (step_details "rolled_back")] |})
    end.
Proof.
  intros Hop. unfold exec. do_run. rewrite Hop. cbn [String.eqb Ascii.eqb Bool.eqb].
  by destruct (Rollback_returns cmd).
Qed.

Lemma exec_other_operation (cmd : Commander) (t : Duration) (job : Job) (h : Host) :
  Operation job ≠ "mender_install" →
  Operation job ≠ "mender_rollback" →
  exec cmd t (start job h) = (None, start job h).
Proof.
  intros Hinstall%String.eqb_neq Hrollback%String.eqb_neq.
  unfold exec. do_run. by rewrite Hinstall, Hrollback.
Qed.

(** X12: a rollback job calls [Rollback] whatever step is persisted,
    with no progress report before it.  When [Rollback] succeeds the job
    reports [Success] with step ["rolled_back"]; when it fails the job
    reports [Fail] with the code [ERR_MENDER_ROLLBACK_FAIL], and [exec]
    returns the tool's own error, not the [JobError]. *)
Theorem rollback_runs_whatever_the_step
    (cmd : Commander) (t : Duration) (job : Job) (h : Host) :
  Operation job = "mender_rollback" →
  let r := exec cmd t (start job h) in
  match Rollback_returns cmd with
  | None =>
      r.1 = None ∧
      calls r.2 = [Rollback; Success (Some [("step", Str "rolled_back")])]
  | Some msg =>
      r.1 = Some (errorString msg) ∧
      calls r.2 = [Rollback; Fail {| ErrCode := "ERR_MENDER_ROLLBACK_FAIL";
                                     ErrMessage := "unable to run rollback" |}]
  end.
Proof.
  intros Hop r. subst r. rewrite (exec_rollback _ _ _ _ Hop).
  by destruct (Rollback_returns cmd).
Qed.

Lemma rollback_runs_whatever_the_step_witness :
  let r := exec sample.CommandFail timeout
             (start (sample.rollback_of "rebooting") sample.booted) in
  r.1 = Some (errorString "rollback error") ∧
  calls r.2 = [Rollback; Fail rollback_failed].
Proof.
  apply (rollback_runs_whatever_the_step sample.CommandFail timeout
           (sample.rollback_of "rebooting") sample.booted eq_refl).
Defined.

Ltac not_in_these :=
  let Hin := fresh "Hin" in
  intros ? Hin;
  repeat (apply elem_of_cons in Hin as [Hin|Hin]; [ discriminate | ]);
  by apply elem_of_nil in Hin.

(** The wait loop ends a job at most once. *)
Lemma wait_ends_once (t : Duration) (signals : list (Duration * signal)) :
  ∀ r, ∃ new,
    calls (wait t signals r).2 = calls r ++ new ∧
    updater_calls new = [] ∧
    (length (terminal_reports new) ≤ 1)%nat ∧
    (∀ e, Reject e ∉ new) ∧
    (is_Some (wait t signals r).1 → ∃ e, last new = Some (Fail e)).
Proof.
  induction signals as [|[after sig] later IH]; intros r.
  - rewrite wait_nothing_sent. exists [Fail install_timeout].
    split_and!; [ done | done | done | not_in_these | eauto ].
  - destruct (Z.le_gt_cases t after) as [Hle|Hlt].
    + rewrite (wait_timer_first _ _ _ _ _ Hle), wait_nothing_sent.
      exists [Fail install_timeout].
      split_and!; [ done | done | done | not_in_these | eauto ].
    + destruct sig as [line|[msg|]].
      * rewrite (wait_progress_line _ _ _ _ _ Hlt).
        match goal with |- context [wait t later ?r'] =>
          destruct (IH r') as (new & -> & Hup & Hterm & Hrej & Hlast) end.
        cbn [calls]. eexists (_ :: new). rewrite <- app_assoc.
        split_and!; [ done | | | | ].
        -- unfold updater_calls in *. by rewrite filter_cons.
        -- unfold terminal_reports in *. by rewrite filter_cons.
        -- intros e [Heq|Hin]%elem_of_cons; [ discriminate | by apply (Hrej e) ].
        -- intros Hsome. destruct (Hlast Hsome) as [e He]. exists e.
           by rewrite last_cons, He.
      * rewrite (wait_install_failed _ _ _ _ _ Hlt). eexists [_].
        cbn [fst snd calls].
        split_and!; [ done | done | done | not_in_these | eauto ].
      * rewrite (wait_install_done _ _ _ _ Hlt). eexists [_; _; _].
        cbn [fst snd calls].
        split_and!; [ done | | | | by intros [? [=]] ];
          unfold rebooted; destruct (Shutdown_returns (host r));
          first [ done | vm_compute; lia | not_in_these ].
Qed.

(** X13: whatever the job, the tool and the timing, one run of [exec]
    makes at most one call on the update tool and at most one terminal
    report, and never calls [Reject]; when it returns an error, its last
    call is a [Fail]. *)
Theorem exec_ends_a_job_at_most_once
    (cmd : Commander) (t : Duration) (job : Job) (h : Host) :
  let r := exec cmd t (start job h) in
  (length (updater_calls (calls r.2)) ≤ 1)%nat ∧
  (length (terminal_reports (calls r.2)) ≤ 1)%nat ∧
  (∀ e, Reject e ∉ calls r.2) ∧
  (is_Some r.1 → ∃ e, last (calls r.2) = Some (Fail e)).
Proof.
  intros r. subst r.
  destruct (decide (Operation job = "mender_install")) as [Hinstall|Hinstall].
  - destruct (decide (Step (menderState job) = "rebooting")) as [Hstep|Hstep].
    + rewrite (exec_after_reboot _ _ _ _ Hinstall Hstep).
      destruct (Commit_returns cmd); cbn [fst snd calls];
        (split_and!; [ done | done | unfold relay; not_in_these | ]);
        [ eauto | by intros [? [=]] ].
    + rewrite (exec_fresh_install _ _ _ _ Hinstall Hstep).
      match goal with |- context [wait t ?sigs ?r'] =>
        destruct (wait_ends_once t sigs r') as (new & -> & Hup & Hterm & Hrej & Hlast) end.
      cbn [calls]. split_and!.
      * unfold updater_calls in *. rewrite filter_app, Hup. done.
      * unfold terminal_reports in *. rewrite filter_app. cbn. done.
      * intros e [Hin|Hin]%elem_of_app; [ | by apply (Hrej e) ].
        revert e Hin. not_in_these.
      * intros Hsome. destruct (Hlast Hsome) as [e He]. exists e.
        by rewrite last_app, He.
  - destruct (decide (Operation job = "mender_rollback")) as [Hrollback|Hrollback].
    + rewrite (exec_rollback _ _ _ _ Hrollback).
      destruct (Rollback_returns cmd); cbn [fst snd calls];
        (split_and!; [ done | done | not_in_these | ]);
        [ eauto | by intros [? [=]] ].
    + rewrite (exec_other_operation _ _ _ _ Hinstall Hrollback). cbn.
      split_and!; [ lia | lia | not_in_these | by intros [? [=]] ].
Qed.

Lemma exec_ends_a_job_at_most_once_witness :
  let r := exec sample.CommandTimeout sample.testTimeout
             (start (sample.install_of "") sample.booted) in
  is_Some r.1 ∧ ∃ e, last (calls r.2) = Some (Fail e).
Proof.
  intros r.
  assert (Hsome : is_Some r.1) by (vm_compute; eauto).
  split; [ exact Hsome | ].
  destruct (exec_ends_a_job_at_most_once sample.CommandTimeout sample.testTimeout
              (sample.install_of "") sample.booted) as (_ & _ & _ & Hlast).
  exact (Hlast Hsome).
Defined.

(** *** [parseJobDocument] and [Process] *)

Lemma parseJobDocument_unrecognised (jobExecution : JobExecutioner) :
  let jobDocument := Marshal_map (GetJobDocument jobExecution) in
  string_field "operation" jobDocument "" ≠ "mender_install" →
  string_field "operation" jobDocument "" ≠ "mender_rollback" →
  parseJobDocument jobExecution =
    ({| Operation := string_field "operation" jobDocument "";
        URL := string_field "url" jobDocument "";
        menderState := {| Step := "" |};
        execution := jobExecution |},
     Some invalid_operation).
Proof.
  intros jobDocument Hinstall%String.eqb_neq Hrollback%String.eqb_neq.
  unfold parseJobDocument. fold jobDocument. cbn [Operation].
  by rewrite Hinstall, Hrollback.
Qed.

Lemma parseJobDocument_rollback (jobExecution : JobExecutioner) :
  let jobDocument := Marshal_map (GetJobDocument jobExecution) in
  string_field "operation" jobDocument "" = "mender_rollback" →
  parseJobDocument jobExecution =
    ({| Operation := "mender_rollback";
        URL := string_field "url" jobDocument "";
        menderState :=
          {| Step := string_field "step"
                       (Marshal_map (GetStatusDetails jobExecution)) "" |};
        execution := jobExecution |},
     None).
Proof.
  intros jobDocument Hop. unfold parseJobDocument. fold jobDocument.
  cbn [Operation]. by rewrite Hop.
Qed.

Lemma parseJobDocument_install (jobExecution : JobExecutioner) :
  let jobDocument := Marshal_map (GetJobDocument jobExecution) in
  string_field "operation" jobDocument "" = "mender_install" →
  string_field "url" jobDocument "" ≠ "" →
  parseJobDocument jobExecution =
    ({| Operation := "mender_install";
        URL := string_field "url" jobDocument "";
        menderState :=
          {| Step := string_field "step"
                       (Marshal_map (GetStatusDetails jobExecution)) "" |};
        execution := jobExecution |},
     None).
Proof.
  intros jobDocument Hop Hurl. unfold parseJobDocument. fold jobDocument.
  cbn [Operation URL]. rewrite Hop. cbn [String.eqb Ascii.eqb Bool.eqb].
  by destruct (string_field "url" jobDocument "").
Qed.

(** X14: for a job document whose operation is neither
    ["mender_install"] nor ["mender_rollback"] (missing or of another
    type included), [Process] calls [Reject] once, with the code
    [ERR_JOB_INVALID_OPERATION], and makes no other call. *)
Theorem Process_rejects_an_unrecognised_operation
    (jobExecution : JobExecutioner) (cmd : Commander) (h : Host) :
  let operation :=
    string_field "operation" (Marshal_map (GetJobDocument jobExecution)) "" in
  operation ≠ "mender_install" →
  operation ≠ "mender_rollback" →
  calls (Process jobExecution cmd h) =
    [Reject {| ErrCode := "ERR_JOB_INVALID_OPERATION";
               ErrMessage := "unrecognized or missing operation" |}].
Proof.
  intros operation Hinstall Hrollback. unfold Process.
  by rewrite (parseJobDocument_unrecognised jobExecution Hinstall Hrollback).
Qed.

Lemma Process_rejects_an_unrecognised_operation_witness :
  calls (Process sample.misspelt_install sample.CommandFail sample.booted)
    = [Reject invalid_operation].
Proof.
  apply (Process_rejects_an_unrecognised_operation sample.misspelt_install
           sample.CommandFail sample.booted); discriminate.
Defined.

(** X15: when decoding the job document fails, [Process] makes no call
    on the update tool; it makes no call at all, or the one [Reject] for
    an invalid operation. *)
Theorem Process_decoding_failure_never_reaches_the_tool
    (jobExecution : JobExecutioner) (cmd : Commander) (h : Host) :
  is_Some (parseJobDocument jobExecution).2 →
  let cs := calls (Process jobExecution cmd h) in
  updater_calls cs = [] ∧
  (cs = [] ∨ cs = [Reject invalid_operation]).
Proof.
  pose (jobDocument := Marshal_map (GetJobDocument jobExecution)).
  destruct (decide (string_field "operation" jobDocument "" = "mender_install"))
    as [Hinstall|Hinstall].
  - destruct (decide (string_field "url" jobDocument "" = "")) as [Hurl|Hurl].
    + intros _ cs. subst cs. unfold Process, parseJobDocument.
      fold jobDocument. cbn [Operation URL]. rewrite Hinstall, Hurl. cbn. eauto.
    + rewrite (parseJobDocument_install jobExecution Hinstall Hurl).
      by intros [? [=]].
  - destruct (decide (string_field "operation" jobDocument "" = "mender_rollback"))
      as [Hrollback|Hrollback].
    + rewrite (parseJobDocument_rollback jobExecution Hrollback).
      by intros [? [=]].
    + intros _ cs. subst cs. unfold Process.
      rewrite (parseJobDocument_unrecognised jobExecution Hinstall Hrollback).
      cbn. eauto.
Qed.

Lemma Process_decoding_failure_never_reaches_the_tool_witness :
  updater_calls (calls (Process sample.install_without_url sample.CommandFail
                          sample.booted)) = [].
Proof.
  apply (Process_decoding_failure_never_reaches_the_tool
           sample.install_without_url sample.CommandFail sample.booted).
  vm_compute. eauto.
Defined.



(** *** The [mender] binary behind [MenderCommand] *)

(** What [MenderCommand.Install] sends: the lines of the binary, then
    its result. *)
Lemma texts_of_prints (ls : list (Duration * string)) :
  texts ((λ l : Duration * string, (l.1, progress_line l.2)) <$> ls) = ls.*2.
Proof.
  unfold texts. induction ls as [|[after line] ls IH]; [ done | ].
  cbn. by rewrite IH.
Qed.

(** X17: with [MenderCommand], an install whose output lines and exit
    each come before the timer fires never times out.  Every line the
    binary prints is published, in order and nothing else, at QoS 0 on
    the topic [mender/<thing>/job/<jobId>/progress], with its bytes that
    are not UTF-8 replaced by U+FFFD.  When the binary exits with an
    error the job is failed with [ERR_MENDER_INSTALL_FAILED] and that
    error's message, and when it exits well the job goes on to the
    reboot. *)
Theorem MenderCommand_install_ends_with_the_binary
    (mender : list string → mender_run) (t : Duration) (job : Job) (h : Host) :
  Operation job = "mender_install" →
  Step (menderState job) ≠ "rebooting" →
  let run := mender ["-install"; URL job] in
  Forall (λ l, (l.1 < t)%Z) (prints run) →
  (exits_after run < t)%Z →
  let r := exec (MenderCommand mender) t (start job h) in
  let topic := "mender/" +:+ GetThingName (execution job) +:+ "/job/"
               +:+ GetJobID (execution job) +:+ "/progress" in
  Forall2
    (λ c line, ∃ ts, c = Publish topic 0
                           (Obj [("progress", Str (Marshal_string line));
                                 ("ts", Num ts)]))
    (filter (λ c, is_Publish c) (calls r.2))
    (prints run).*2 ∧
  match exits_with run with
  | Some msg =>
      r.1 = Some (job_error {| ErrCode := "ERR_MENDER_INSTALL_FAILED";
                               ErrMessage := msg |}) ∧
      last (calls r.2) = Some (Fail {| ErrCode := "ERR_MENDER_INSTALL_FAILED";
                                        ErrMessage := msg |})
  | None =>
      r.1 = None ∧
      reports (calls r.2) =
        InProgress (Some [("step", Str "installing")])
        :: InProgress (Some [("step", Str "rebooting")])
        :: match Shutdown_returns h with
           | Some msg => [Fail {| ErrCode := "ERROR_UNABLE_TO_REBOOT";
                                  ErrMessage := msg |}]
           | None => []
           end
  end.
Proof.
  intros Hop Hstep run Hprints Hexit r topic.
  set (lines := (λ l : Duration * string, (l.1, progress_line l.2)) <$> prints run).
  assert (Hsends : Install_sends (MenderCommand mender) (URL job)
                   = lines ++ [(exits_after run, done_with (exits_with run))])
    by reflexivity.
  assert (Hlines : Forall (line_in_time t) lines).
  { subst lines. apply Forall_fmap. eapply Forall_impl; [ exact Hprints | ].
    intros [after line] Hafter. by split. }
  split.
  - rewrite <- (texts_of_prints (prints run)). fold lines. subst r.
    eapply Forall2_impl;
      [ apply (exec_install_publishes _ _ _ _ _ _ Hop Hstep Hsends Hlines);
        intros s [= <-] [Hline _]; discriminate Hline | ].
    intros c line [ts ->]. by eexists.
  - subst r. destruct (exits_with run) as [msg|] eqn:Hwith.
    + destruct (exec_install_relays_lines _ t job h lines _ Hop Hstep Hsends Hlines)
        as (relays & hr & -> & _ & _).
      rewrite (wait_install_failed _ _ _ _ _ Hexit). cbn [fst snd calls].
      split; [ done | ]. by rewrite last_snoc.
    + destruct (exec_install_done _ t job h lines [] (exits_after run)
                  Hop Hstep Hsends Hlines Hexit)
        as (Hnil & _ & relays & Hrelays & ->).
      split; [ done | ].
      unfold reports. rewrite !filter_cons, filter_app.
      rewrite (filter_Publish (λ c, is_report c) relays Hrelays)
        by (intros c Hc Hr; destruct c; cbn in *; done).
      by destruct (Shutdown_returns h).
Qed.

Lemma MenderCommand_install_ends_with_the_binary_witness :
  let r := exec (MenderCommand (sample.mender_binary (Some "exit status 1")))
             timeout (start (sample.install_of "") sample.booted) in
  length (filter (λ c, is_Publish c) (calls r.2)) = 2 ∧
  r.1 = Some (job_error (install_failed "exit status 1")).
Proof.
  destruct (MenderCommand_install_ends_with_the_binary
              (sample.mender_binary (Some "exit status 1")) timeout
              (sample.install_of "") sample.booted)
    as (Hrelayed & Hfailed & _).
  - reflexivity.
  - discriminate.
  - repeat constructor.
  - reflexivity.
  - split; [ | exact Hfailed ].
    cbv zeta in Hrelayed. by rewrite (Forall2_length _ _ _ Hrelayed).
Defined.

End orchestrator_runs.
